(** * docker-discord-alerts: the event pipeline of [main.py]

    A shallow embedding of [DockerMonitor] (main.py): the retrying
    webhook client [send_discord_embed], the status lookup
    [get_container_status] and the event loop [monitor_events], followed by
    the properties of the pipeline.

    Python strings are modelled as [string] (the bytes of their UTF-8
    encoding; splitting at [','], replacing ['T'] and filling [{name}] act
    on ASCII bytes, and slicing counts characters, see [slice_to]); decoded
    JSON as the tree [pyobj]; the Docker daemon, the webhook and the clock
    as the oracles of a [World], and what the program does to them as a
    trace of [effect]s kept in the [State]. *)

From stdpp Require Import gmap strings list pretty.
From Stdlib Require Import ZArith Ascii String.

Local Open Scope string_scope.
Local Open Scope Z_scope.

(** ** Python values and exceptions *)

(** What [json.loads] produces ([events(decode=True)], [container.attrs]).
    [Num] stands for a JSON integer; non-integer numbers are left out. *)
#[warnings="-register-all"] Inductive pyobj :=
| Str (s : string)
| Num (n : Z)
| Bool (b : bool)
| Null
| List (l : list pyobj)
| Dict (d : gmap string pyobj).

(** Subclasses of Python's [Exception] that occur in the program;
    [OtherException] is any class that no handler of the program names
    ([ValueError], [OverflowError], ...), with its message. *)
Inductive exception :=
| KeyError (key : pyobj)
| TypeError (msg : string)
| AttributeError (msg : string)
| NotFound (msg : string)          (* docker.errors.NotFound *)
| RequestException (msg : string)  (* requests.exceptions.RequestException *)
| OtherException (msg : string).

(** [KeyboardInterrupt] derives from [BaseException] only: no
    [except Exception] clause catches it. *)
Inductive raised :=
| KeyboardInterrupt
| Exc (e : exception).

Inductive result (A : Type) :=
| Return (a : A)
| Raise (r : raised).
Arguments Return {A} a.
Arguments Raise {A} r.

Definition type_name (v : pyobj) : string :=
  match v with
  | Str _ => "str"
  | Num _ => "int"
  | Bool _ => "bool"
  | Null => "NoneType"
  | List _ => "list"
  | Dict _ => "dict"
  end.

(** [d[key]] on a dict *)
Definition dict_getitem {A} (d : gmap string A) (key : string) : result A :=
  match d !! key with
  | Some v => Return v
  | None => Raise (Exc (KeyError (Str key)))
  end.

(** [v[key]] with a [str] key *)
Definition getitem (v : pyobj) (key : string) : result pyobj :=
  match v with
  | Dict d => dict_getitem d key
  | Str _ => Raise (Exc (TypeError "string indices must be integers, not 'str'"))
  | List _ => Raise (Exc (TypeError "list indices must be integers or slices, not str"))
  | _ => Raise (Exc (TypeError ("'" ++ type_name v ++ "' object is not subscriptable")))
  end.

(** [v.get(key, dflt)] *)
Definition get (v : pyobj) (key : string) (dflt : pyobj) : result pyobj :=
  match v with
  | Dict d => Return (default dflt (d !! key))
  | _ => Raise (Exc (AttributeError
                       ("'" ++ type_name v ++ "' object has no attribute 'get'")))
  end.

(** [v == s] for a [str] [s]: only a [str] equals a [str]. *)
Definition py_eq_str (v : pyobj) (s : string) : bool :=
  match v with
  | Str s' => bool_decide (s' = s)
  | _ => false
  end.

(** [v in l] for a list of [str] *)
Definition in_list (v : pyobj) (l : list string) : bool :=
  match v with
  | Str s => bool_decide (s ∈ l)
  | _ => false
  end.

(** [v in d] for a dict with [str] keys: hashes [v] first. *)
Definition in_dict {A} (v : pyobj) (d : gmap string A) : result bool :=
  match v with
  | Str s => Return (bool_decide (is_Some (d !! s)))
  | List _ | Dict _ =>
      Raise (Exc (TypeError ("unhashable type: '" ++ type_name v ++ "'")))
  | _ => Return false
  end.

(** [d[v]] for a dict with [str] keys *)
Definition dict_getitem_obj {A} (d : gmap string A) (v : pyobj) : result A :=
  match v with
  | Str s => dict_getitem d s
  | List _ | Dict _ =>
      Raise (Exc (TypeError ("unhashable type: '" ++ type_name v ++ "'")))
  | _ => Raise (Exc (KeyError v))
  end.

(** ** String operations *)

(** [s.split(',')] *)
Fixpoint split_comma (s : string) : list string :=
  match s with
  | EmptyString => [""]
  | String c rest =>
      if bool_decide (c = ","%char) then "" :: split_comma rest
      else match split_comma rest with
           | piece :: pieces => String c piece :: pieces
           | [] => [String c ""]
           end
  end.

(** [tmpl.format(name=...)] for a template whose only braces are those of
    [{name}] fields, as in every template of [event_configs]. *)
Fixpoint format_name (tmpl name : string) : string :=
  match tmpl with
  | String "{"%char (String "n"%char (String "a"%char
      (String "m"%char (String "e"%char (String "}"%char rest))))) =>
      name ++ format_name rest name
  | String c rest => String c (format_name rest name)
  | EmptyString => ""
  end.

(** [s.replace(old, new)] for single characters *)
Fixpoint replace_char (old new : ascii) (s : string) : string :=
  match s with
  | EmptyString => ""
  | String c rest =>
      String (if bool_decide (c = old) then new else c) (replace_char old new rest)
  end.

(** A byte [10xxxxxx]: inside the UTF-8 encoding of a character, never its
    first byte. *)
Definition is_continuation (c : ascii) : bool :=
  bool_decide (128 ≤ nat_of_ascii c < 192)%nat.

(** [s[:n]]: the first [n] characters. A character starts at each byte that
    is no continuation byte and takes the continuation bytes after it. *)
Fixpoint slice_to (n : nat) (s : string) : string :=
  match s with
  | EmptyString => ""
  | String c rest =>
      if is_continuation c then String c (slice_to n rest)
      else match n with
           | O => ""
           | S n' => String c (slice_to n' rest)
           end
  end.

(** ** The program's data *)

Record EventConfig := {
  title : string;
  description : string;
  color : Z
}.

(** The fields of [self] read after [__init__]; [notification_level] is
    stored lower-cased. *)
Record DockerMonitor := {
  webhook_url : string;
  monitored_containers : string;
  notification_level : string;
  health_check_interval : Z;
  max_retries : Z;
  retry_delay : Z
}.

(** [self.event_configs], the same literal for every instance *)
Definition event_configs : gmap string EventConfig :=
  <["start" := {| title := "🟢 Container Started: {name}";
                  description := "Container {name} has started successfully.";
                  color := 0x00FF00 |}]>
 (<["die" := {| title := "🔴 Container Stopped: {name}";
                description := "Container {name} has stopped.";
                color := 0xFF0000 |}]>
 (<["pause" := {| title := "⏸️ Container Paused: {name}";
                  description := "Container {name} has been paused.";
                  color := 0xFFA500 |}]>
 (<["unpause" := {| title := "▶️ Container Unpaused: {name}";
                    description := "Container {name} has been unpaused.";
                    color := 0x00FF00 |}]>
 (<["health_status" := {| title := "🏥 Health Status: {name}";
                          description := "Health status changed for container {name}.";
                          color := 0x0000FF |}]> ∅)))).

(** One entry of an embed's ["fields"] *)
Record field := {
  name : string;
  value : pyobj;
  inline : bool
}.

Record embed := {
  embed_title : string;
  embed_description : string;
  embed_color : Z;
  embed_fields : list field;
  embed_timestamp : string
}.

(** The dict returned by [get_container_status] *)
Record ContainerStatus := {
  image : pyobj;
  status : pyobj;
  health : pyobj;
  created : pyobj;
  platform : pyobj
}.

(** What the monitor reads of a [docker] container object *)
Module Container.
Record t := {
  image_tags : list string;       (* container.image.tags *)
  status : string;                (* container.status *)
  attrs : gmap string pyobj       (* container.attrs *)
}.
End Container.

(** ** The outside world *)

(** Outcome of one [requests.post]: a response with its status code, or an
    exception. The collaborators raise Python exceptions; an interrupt by
    the operator is modelled where the loop waits, at the read of the event
    stream (see [stream_item]). *)
Inductive post_outcome :=
| Response (status_code : Z)
| PostRaises (e : exception).

(** Outcome of one [self.client.containers.get] together with the reads of
    the returned object. *)
Inductive lookup_outcome :=
| Found (c : Container.t)
| LookupRaises (e : exception).

(** The collaborators, each answering by the number of calls made to it so
    far. [strftime] is [time.strftime('%Y-%m-%dT%H:%M:%SZ', time.gmtime(t))]
    and [repr] is Python's [repr()]; both are library code and stay
    parameters. [sleep_max] is the longest delay in seconds that
    [time.sleep] can convert to its clock's unit, a limit of the Python
    implementation. *)
Record World := {
  webhook : nat → post_outcome;
  containers_get : nat → pyobj → lookup_outcome;
  time_time : nat → Z;                 (* int(time.time()) *)
  strftime : Z → string;
  repr : pyobj → string;
  sleep_max : Z
}.

Inductive level := INFO | WARNING | ERROR.

(** What the program does to the outside, in the order it does it.
    [json.dumps] is not modelled: a request carries the payload itself,
    [{"embeds": data}]. *)
Inductive effect :=
| Post (url : string) (data : list embed) (timeout : Z)
| Sleep (secs : Z)
| Log (lvl : level) (msg : string)
| ContainersGet (container_id : pyobj).

Record State := {
  n_posts : nat;
  n_lookups : nat;
  n_clock : nat;
  out : list effect
}.

(** Computations: state passing with exceptions. *)
Definition M (A : Type) : Type := State → result A * State.

Definition ret {A} (a : A) : M A := fun st => (Return a, st).

Definition raise {A} (r : raised) : M A := fun st => (Raise r, st).

Definition bind {A B} (m : M A) (k : A → M B) : M B :=
  fun st =>
    match m st with
    | (Return a, st') => k a st'
    | (Raise r, st') => (Raise r, st')
    end.

Definition lift {A} (r : result A) : M A := fun st => (r, st).

Notation "'let*' x := m 'in' k" := (bind m (fun x => k))
  (at level 10, x pattern, m at level 100, k at level 200).

(** The state once [e] has been done *)
Definition record (e : effect) (st : State) : State :=
  {| n_posts := n_posts st; n_lookups := n_lookups st;
     n_clock := n_clock st; out := out st ++ [e] |}.

(** The state once the clock has been read *)
Definition tick (st : State) : State :=
  {| n_posts := n_posts st; n_lookups := n_lookups st;
     n_clock := S (n_clock st); out := out st |}.

Definition emit (e : effect) : M unit := fun st => (Return tt, record e st).

Definition log (lvl : level) (msg : string) : M unit := emit (Log lvl msg).

(** What [time.sleep(secs)] raises for an integer [secs], if anything:
    [OverflowError] when the delay does not convert, [ValueError] when it
    is negative. *)
Definition sleep_error (w : World) (secs : Z) : option exception :=
  if bool_decide (sleep_max w < Z.abs secs)
  then Some (OtherException "timestamp too large to convert to C _PyTime_t")
  else if bool_decide (secs < 0)
  then Some (OtherException "sleep length must be non-negative")
  else None.

(** [time.sleep(secs)] *)
Definition sleep (w : World) (secs : Z) : M unit :=
  match sleep_error w secs with
  | Some e => raise (Exc e)
  | None => emit (Sleep secs)
  end.

(** One reading of the clock *)
Definition clock (w : World) : M Z :=
  fun st => (Return (time_time w (n_clock st)), tick st).

(** [requests.post(url, data=json.dumps(payload), headers=headers, timeout=10)]:
    the response's status code, or the exception. *)
Definition requests_post (w : World) (url : string) (data : list embed)
    (timeout : Z) : M Z :=
  fun st =>
    let st' := {| n_posts := S (n_posts st); n_lookups := n_lookups st;
                  n_clock := n_clock st;
                  out := out st ++ [Post url data timeout] |} in
    match webhook w (n_posts st) with
    | Response code => (Return code, st')
    | PostRaises e => (Raise (Exc e), st')
    end.

(** [self.client.containers.get(container_id)] *)
Definition client_containers_get (w : World) (container_id : pyobj) : M Container.t :=
  fun st =>
    let st' := {| n_posts := n_posts st; n_lookups := S (n_lookups st);
                  n_clock := n_clock st;
                  out := out st ++ [ContainersGet container_id] |} in
    match containers_get w (n_lookups st) container_id with
    | Found c => (Return c, st')
    | LookupRaises e => (Raise (Exc e), st')
    end.

(** [str(v)], as [format] and f-strings apply it: a [str] is itself, the
    other values print as their [repr]. *)
Definition to_str (w : World) (v : pyobj) : string :=
  match v with
  | Str s => s
  | _ => repr w v
  end.

(** [str(e)] *)
Definition exception_str (w : World) (e : exception) : string :=
  match e with
  | KeyError k => repr w k
  | TypeError m | AttributeError m | NotFound m
  | RequestException m | OtherException m => m
  end.

(** [range(n)] *)
Definition range (n : Z) : list Z := Z.of_nat <$> seq 0 (Z.to_nat n).

(** ** [send_discord_embed] (main.py, lines 77-106) *)

(** The [for attempt in range(self.max_retries)] loop over the attempts
    still to make; [Return true] is the [return True] of the body, the
    empty list the [return False] after the loop. *)
Fixpoint send_attempts (w : World) (self : DockerMonitor) (payload : list embed)
    (attempts : list Z) : M bool :=
  match attempts with
  | [] => ret false
  | attempt :: attempts' =>
      fun st =>
        match requests_post w (webhook_url self) payload 10 st with
        | (Return status_code, st1) =>
            if bool_decide (status_code = 204) then (Return true, st1)
            else
              (let* _ := log WARNING ("Discord API returned status code: "
                                      ++ pretty status_code) in
               send_attempts w self payload attempts') st1
        | (Raise (Exc (RequestException m)), st1) =>
            let e := RequestException m in
            (let* _ := log ERROR ("Attempt " ++ pretty (attempt + 1) ++ "/"
                                  ++ pretty (max_retries self) ++ " failed: "
                                  ++ exception_str w e) in
             let* _ := (if bool_decide (attempt < max_retries self - 1)
                        then sleep w (retry_delay self) else ret tt) in
             send_attempts w self payload attempts') st1
        | (Raise r, st1) => (Raise r, st1)
        end
  end.

Definition send_discord_embed (w : World) (self : DockerMonitor)
    (title description : string) (color : Z) (fields : list field) : M bool :=
  let* now := clock w in
  let embed := {| embed_title := title;
                  embed_description := description;
                  embed_color := color;
                  embed_fields := fields;
                  embed_timestamp := strftime w now |} in
  let payload := [embed] in
  send_attempts w self payload (range (max_retries self)).

(** An attempt is acknowledged when the response's status code is 204. *)
Definition acknowledged (o : post_outcome) : bool :=
  match o with
  | Response status_code => bool_decide (status_code = 204)
  | PostRaises _ => false
  end.

(** A failed attempt: a response with another status code, or a transport
    error ([RequestException]). *)
Definition failed_attempt (o : post_outcome) : bool :=
  match o with
  | Response status_code => negb (bool_decide (status_code = 204))
  | PostRaises (RequestException _) => true
  | PostRaises _ => false
  end.

(** A delay that [time.sleep] accepts *)
Definition sleep_accepts (w : World) (secs : Z) : Prop := 0 ≤ secs ≤ sleep_max w.

(** The number of [time.sleep] calls in a trace *)
Fixpoint sleeps (trace : list effect) : nat :=
  match trace with
  | [] => 0
  | Sleep _ :: trace' => S (sleeps trace')
  | _ :: trace' => sleeps trace'
  end.

(** The requests of a trace, in order *)
Fixpoint posts (trace : list effect) : list (list embed) :=
  match trace with
  | [] => []
  | Post _ data _ :: trace' => data :: posts trace'
  | _ :: trace' => posts trace'
  end.

(** ** [get_container_status] (main.py, lines 108-124) *)

Definition unknown_status : ContainerStatus :=
  {| image := Str "unknown"; status := Str "unknown"; health := Str "unknown";
     created := Str "unknown"; platform := Str "unknown" |}.

Definition error_status : ContainerStatus :=
  {| image := Str "error"; status := Str "error"; health := Str "error";
     created := Str "error"; platform := Str "error" |}.

(** [v[:19].replace('T', ' ')]: slicing needs a sequence, [replace] a
    [str]; a dict is asked for the key [slice(None, 19)], which it cannot
    hash. *)
Definition created_text (v : pyobj) : result pyobj :=
  match v with
  | Str s => Return (Str (replace_char "T" " " (slice_to 19 s)))
  | List _ => Raise (Exc (AttributeError "'list' object has no attribute 'replace'"))
  | Dict _ => Raise (Exc (TypeError "unhashable type: 'slice'"))
  | _ => Raise (Exc (TypeError ("'" ++ type_name v ++ "' object is not subscriptable")))
  end.

(** The body of the [try] *)
Definition container_status_of (w : World) (container_id : pyobj) : M ContainerStatus :=
  let* container := client_containers_get w container_id in
  let attrs := Dict (Container.attrs container) in
  let image := match Container.image_tags container with
               | tag :: _ => tag
               | [] => "untagged"
               end in
  let* state := lift (get attrs "State" (Dict ∅)) in
  let* state_health := lift (get state "Health" (Dict ∅)) in
  let* health := lift (get state_health "Status" (Str "N/A")) in
  let* created_raw := lift (getitem attrs "Created") in
  let* created := lift (created_text created_raw) in
  let* platform := lift (get attrs "Platform" (Str "N/A")) in
  ret {| image := Str image;
         status := Str (Container.status container);
         health := health;
         created := created;
         platform := platform |}.

Definition get_container_status (w : World) (container_id : pyobj) : M ContainerStatus :=
  fun st =>
    match container_status_of w container_id st with
    | (Return status, st1) => (Return status, st1)
    | (Raise (Exc (NotFound _)), st1) => (Return unknown_status, st1)
    | (Raise (Exc e), st1) =>
        (let* _ := log ERROR ("Error getting container status: " ++ exception_str w e) in
         ret error_status) st1
    | (Raise KeyboardInterrupt, st1) => (Raise KeyboardInterrupt, st1)
    end.

(** ** [monitor_events] (main.py, lines 126-181) *)

(** [self.monitored_containers != '*' and
     container_name not in self.monitored_containers.split(',')] *)
Definition container_skipped (self : DockerMonitor) (container_name : pyobj) : bool :=
  bool_decide (monitored_containers self ≠ "*")
  && negb (in_list container_name (split_comma (monitored_containers self))).

(** [self.notification_level != 'all' and
     action not in self.notification_level.split(',')] *)
Definition action_skipped (self : DockerMonitor) (action : pyobj) : bool :=
  bool_decide (notification_level self ≠ "all")
  && negb (in_list action (split_comma (notification_level self))).

(** The six entries of the [fields] literal (lines 150-157) *)
Definition base_fields (action : pyobj) (info : ContainerStatus) (now : Z) : list field :=
  [ {| name := "Event"; value := action; inline := true |};
    {| name := "Image"; value := image info; inline := true |};
    {| name := "Status"; value := status info; inline := true |};
    {| name := "Health"; value := health info; inline := true |};
    {| name := "Platform"; value := platform info; inline := true |};
    {| name := "Timestamp"; value := Str ("<t:" ++ pretty now ++ ":F>");
       inline := false |} ].

(** The block under [if action in self.event_configs:] (lines 147-175):
    look the container up, build the fields, send, and log a failed
    delivery. *)
Definition notify (w : World) (self : DockerMonitor) (event : gmap string pyobj)
    (container_name action : pyobj) : M unit :=
  let* known := lift (in_dict action event_configs) in
  if known then
    let* container_id := lift (dict_getitem event "id") in
    let* status := get_container_status w container_id in
    let* now := clock w in
    let fields := base_fields action status now in
    let* fields :=
      (if py_eq_str action "die" then
         let* actor := lift (dict_getitem event "Actor") in
         let* attributes := lift (getitem actor "Attributes") in
         let* exit_code := lift (get attributes "exitCode" (Str "Unknown")) in
         ret (fields ++ [ {| name := "Exit Code"; value := exit_code;
                             inline := false |} ])%list
       else ret fields) in
    let* event_config := lift (dict_getitem_obj event_configs action) in
    let* sent := send_discord_embed w self
                   (format_name (title event_config) (to_str w container_name))
                   (format_name (description event_config) (to_str w container_name))
                   (color event_config)
                   fields in
    if negb sent then
      log ERROR ("Failed to send notification for " ++ to_str w container_name
                 ++ " " ++ to_str w action)
    else ret tt
  else ret tt.

(** The body of the [for] loop, for one event (lines 133-175); [ret tt] is
    [continue] or the end of the body. *)
Definition handle_event (w : World) (self : DockerMonitor)
    (event : gmap string pyobj) : M unit :=
  let* event_type := lift (dict_getitem event "Type") in
  if negb (py_eq_str event_type "container") then ret tt else
  let* actor := lift (dict_getitem event "Actor") in
  let* attributes := lift (getitem actor "Attributes") in
  let* container_name := lift (get attributes "name" (Str "unknown")) in
  let* action := lift (dict_getitem event "Action") in
  if container_skipped self container_name then ret tt else
  if action_skipped self action then ret tt else
  notify w self event container_name action.

(** What [next()] on [self.client.events(decode=True)] gives: an event, or
    an exception raised while waiting for one. *)
Inductive stream_item :=
| Yield (event : gmap string pyobj)
| StreamRaises (r : raised).

(** The [for event in ...] loop over the items the stream delivers; the
    end of the list is the end of the stream. *)
Fixpoint monitor_loop (w : World) (self : DockerMonitor)
    (stream : list stream_item) : M unit :=
  match stream with
  | [] => ret tt
  | Yield event :: stream' =>
      let* _ := handle_event w self event in
      monitor_loop w self stream'
  | StreamRaises r :: _ => raise r
  end.

Definition monitor_events (w : World) (self : DockerMonitor)
    (stream : list stream_item) : M unit :=
  let* _ := log INFO ("Starting Docker monitor with notification level: "
                      ++ notification_level self) in
  let* _ := log INFO ("Monitoring containers: " ++ monitored_containers self) in
  fun st =>
    match monitor_loop w self stream st with
    | (Return tt, st1) => (Return tt, st1)
    | (Raise KeyboardInterrupt, st1) =>
        log INFO "Gracefully shutting down Docker monitor..." st1
    | (Raise (Exc e), st1) =>
        (let* _ := log ERROR ("Fatal error in event monitoring: "
                              ++ exception_str w e) in
         raise (Exc e)) st1
    end.

(** A string without a comma *)
Fixpoint comma_free (s : string) : bool :=
  match s with
  | EmptyString => true
  | String c rest => negb (bool_decide (c = ","%char)) && comma_free rest
  end.

(** ** Example inputs *)

Definition initial_state : State :=
  {| n_posts := 0; n_lookups := 0; n_clock := 0; out := [] |}.

Definition example_repr (v : pyobj) : string :=
  match v with
  | Str s => "'" ++ s ++ "'"
  | _ => "<object>"
  end.

(** A world with the given webhook and one answer to every lookup, at
    2023-11-14 22:13:20 UTC. *)
Definition example_world (hook : nat → post_outcome) (lookup : lookup_outcome) : World :=
  {| webhook := hook;
     containers_get := λ _ _, lookup;
     time_time := λ _, 1700000000;
     strftime := λ _, "2023-11-14T22:13:20Z";
     repr := example_repr;
     sleep_max := 9223372036 |}.

(** The defaults of [__init__]: both allow-lists open, three attempts, five
    seconds between them. *)
Definition default_monitor : DockerMonitor :=
  {| webhook_url := "https://discord.example/api/webhooks/1";
     monitored_containers := "*";
     notification_level := "all";
     health_check_interval := 300;
     max_retries := 3;
     retry_delay := 5 |}.

(** [RETRY_DELAY=-1] *)
Definition negative_delay_monitor : DockerMonitor :=
  {| webhook_url := "https://discord.example/api/webhooks/1";
     monitored_containers := "*";
     notification_level := "all";
     health_check_interval := 300;
     max_retries := 3;
     retry_delay := -1 |}.

(** 500 on the first two requests, 204 from the third on *)
Definition hook_500_500_204 (k : nat) : post_outcome :=
  if (k <? 2)%nat then Response 500 else Response 204.

Definition hook_always (o : post_outcome) (k : nat) : post_outcome := o.

(** [NOTIFICATION_LEVEL=*] *)
Definition star_level_monitor : DockerMonitor :=
  {| webhook_url := webhook_url default_monitor;
     monitored_containers := "*";
     notification_level := "*";
     health_check_interval := 300;
     max_retries := 3;
     retry_delay := 5 |}.

(** [MONITORED_CONTAINERS=web,db] *)
Definition web_db_monitor : DockerMonitor :=
  {| webhook_url := webhook_url default_monitor;
     monitored_containers := "web,db";
     notification_level := "all";
     health_check_interval := 300;
     max_retries := 3;
     retry_delay := 5 |}.

(** A running container tagged [web:latest], without a health check *)
Definition web_container : Container.t :=
  {| Container.image_tags := ["web:latest"];
     Container.status := "running";
     Container.attrs :=
       <["State" := Dict (<["Status" := Str "running"]> ∅)]>
      (<["Created" := Str "2024-01-01T12:00:00.000Z"]>
      (<["Platform" := Str "linux"]> ∅)) |}.

(** The keys of [event_configs] *)
Definition template_actions : list string :=
  ["start"; "die"; "pause"; "unpause"; "health_status"].

(** The subject name of an event with the given [Attributes] (line 136) *)
Definition name_of (attributes : gmap string pyobj) : pyobj :=
  default (Str "unknown") (attributes !! "name").

(** A container event as the daemon sends it: the keys the monitor reads,
    with the given action, container id and attributes. *)
Definition container_event (action container_id : string)
    (attributes : gmap string pyobj) : gmap string pyobj :=
  <["Type" := Str "container"]>
 (<["Action" := Str action]>
 (<["id" := Str container_id]>
 (<["Actor" := Dict (<["ID" := Str container_id]>
                    (<["Attributes" := Dict attributes]> ∅))]> ∅))).

Definition start_event : gmap string pyobj :=
  container_event "start" "abc" (<["name" := Str "web"]> ∅).

Definition die_event : gmap string pyobj :=
  container_event "die" "abc" (<["name" := Str "web"]> (<["exitCode" := Str "137"]> ∅)).

Definition create_event : gmap string pyobj :=
  container_event "create" "abc" (<["name" := Str "web"]> ∅).

(** A [create] event without the [id] key *)
Definition create_event_without_id : gmap string pyobj :=
  delete "id" (container_event "create" "abc" (<["name" := Str "web"]> ∅)).

(** A [start] event without the [id] key *)
Definition start_event_without_id : gmap string pyobj :=
  delete "id" start_event.

(** A [start] event whose attributes hold no [name] *)
Definition nameless_event : gmap string pyobj :=
  container_event "start" "abc" (<["image" := Str "web:latest"]> ∅).

(** The state in which [monitor_events] enters its loop: the two start-up
    lines are logged. *)
Definition started (self : DockerMonitor) (st : State) : State :=
  record (Log INFO ("Monitoring containers: " ++ monitored_containers self))
    (record (Log INFO ("Starting Docker monitor with notification level: "
                       ++ notification_level self)) st).

(** A [start] event of a container named [cache] *)
Definition cache_event : gmap string pyobj :=
  container_event "start" "def" (<["name" := Str "cache"]> ∅).

(** The daemon knows [web_container]; the webhook acknowledges at once. *)
Definition ok_world : World :=
  example_world (hook_always (Response 204)) (Found web_container).

(** The daemon knows [web_container]; the webhook answers 500 twice, then
    204. *)
Definition web_world : World :=
  example_world hook_500_500_204 (Found web_container).

(** The daemon knows [web_container]; the webhook answers 500 to every
    request. *)
Definition down_world : World :=
  example_world (hook_always (Response 500)) (Found web_container).

(** The daemon knows [web_container]; every request to the webhook times
    out. *)
Definition unreachable_world : World :=
  example_world (hook_always (PostRaises (RequestException "timed out")))
    (Found web_container).

(** ** [DockerMonitor.__init__] (main.py, lines 23-75) and [main] (lines 183-189) *)

(** The exceptions of the start-up, all subclasses of [Exception] *)
Inductive startup_exception :=
| ValueError (msg : string)
| DockerException (msg : string)   (* docker.errors.DockerException *)
| StartupOther (e : exception).

(** [str(e)] *)
Definition startup_exception_str (w : World) (e : startup_exception) : string :=
  match e with
  | ValueError m | DockerException m => m
  | StartupOther e => exception_str w e
  end.

(** Outcome of [docker.from_env()] followed by [self.client.ping()] *)
Inductive connect_outcome :=
| Connected
| ConnectRaises (e : startup_exception).

(** What the process starts in: its environment, the Docker daemon's answer
    to the connection, and the library functions [int] and [str.lower],
    which stay parameters; [py_int s] is [None] where [int(s)] raises
    [ValueError]. *)
Record Host := {
  environ : gmap string string;
  docker_connect : connect_outcome;
  py_int : string → option Z;
  py_lower : string → string
}.

(** [os.environ.get(key, dflt)] *)
Definition environ_get (h : Host) (key dflt : string) : string :=
  default dflt (environ h !! key).

(** [int(os.environ.get(key, dflt))] *)
Definition int_setting (h : Host) (w : World) (key dflt : string)
    : startup_exception + Z :=
  let text := environ_get h key dflt in
  match py_int h text with
  | Some n => inr n
  | None => inl (ValueError ("invalid literal for int() with base 10: "
                             ++ repr w (Str text)))
  end.

(** [DockerMonitor()]: the new monitor or the exception raised, whether
    Docker was contacted, and the state after the log lines written. *)
Definition DockerMonitor_init (h : Host) (w : World) (st : State)
    : (startup_exception + DockerMonitor) * bool * State :=
  let webhook_url := environ h !! "DISCORD_WEBHOOK_URL" in
  match webhook_url with
  | None | Some EmptyString =>
      (inl (ValueError "DISCORD_WEBHOOK_URL environment variable is required"),
       false, st)
  | Some webhook_url =>
      let monitored_containers := environ_get h "MONITORED_CONTAINERS" "*" in
      let notification_level := py_lower h (environ_get h "NOTIFICATION_LEVEL" "all") in
      match int_setting h w "HEALTH_CHECK_INTERVAL" "300" with
      | inl e => (inl e, false, st)
      | inr health_check_interval =>
      match int_setting h w "MAX_RETRIES" "3" with
      | inl e => (inl e, false, st)
      | inr max_retries =>
      match int_setting h w "RETRY_DELAY" "5" with
      | inl e => (inl e, false, st)
      | inr retry_delay =>
      match docker_connect h with
      | Connected =>
          (inr {| webhook_url := webhook_url;
                  monitored_containers := monitored_containers;
                  notification_level := notification_level;
                  health_check_interval := health_check_interval;
                  max_retries := max_retries;
                  retry_delay := retry_delay |},
           true, st)
      | ConnectRaises (DockerException m) =>
          (inl (DockerException m), true,
           record (Log ERROR ("Failed to connect to Docker: " ++ m)) st)
      | ConnectRaises e => (inl e, true, st)
      end end end end
  end.

(** How the process ends: with an exit status, or by an exception that
    nothing caught. *)
Inductive termination :=
| Exit (code : Z)
| Uncaught (r : raised).

(** [main()], for the events the stream delivers: falling off the end of
    the script is exit status 0, [exit(1)] is exit status 1. *)
Definition main (h : Host) (w : World) (stream : list stream_item) (st : State)
    : termination * bool * State :=
  match DockerMonitor_init h w st with
  | (inl e, docker_called, st1) =>
      (Exit 1, docker_called,
       record (Log ERROR ("Application error: " ++ startup_exception_str w e)) st1)
  | (inr monitor, docker_called, st1) =>
      match monitor_events w monitor stream st1 with
      | (Return tt, st2) => (Exit 0, docker_called, st2)
      | (Raise (Exc e), st2) =>
          (Exit 1, docker_called,
           record (Log ERROR ("Application error: " ++ exception_str w e)) st2)
      | (Raise KeyboardInterrupt, st2) => (Uncaught KeyboardInterrupt, docker_called, st2)
      end
  end.

(** ** Notions used by the further properties *)

(** What [send_discord_embed] may do for a payload: post it to the
    configured URL with the ten-second timeout, sleep for the configured
    delay, log. *)
Definition delivery_effect (self : DockerMonitor) (payload : list embed)
    (e : effect) : Prop :=
  match e with
  | Post url data timeout => url = webhook_url self ∧ data = payload ∧ timeout = 10
  | Sleep secs => secs = retry_delay self
  | Log _ _ => True
  | ContainersGet _ => False
  end.

Definition is_sleep (e : effect) : bool :=
  match e with
  | Sleep _ => true
  | _ => false
  end.

(** The number of log lines in a trace *)
Fixpoint log_lines (trace : list effect) : nat :=
  match trace with
  | [] => 0
  | Log _ _ :: trace' => S (log_lines trace')
  | _ :: trace' => log_lines trace'
  end.

(** The number of lookups in a trace *)
Fixpoint lookups (trace : list effect) : nat :=
  match trace with
  | [] => 0
  | ContainersGet _ :: trace' => S (lookups trace')
  | _ :: trace' => lookups trace'
  end.

Definition has_comma (s : string) : bool := negb (comma_free s).

(** The number of characters of a string: the bytes that start one *)
Fixpoint char_count (s : string) : nat :=
  match s with
  | EmptyString => 0
  | String c rest => if is_continuation c then char_count rest else S (char_count rest)
  end.

(** A computation that asks the daemon at most [l] times, sends at most [p]
    requests and reads the clock at most [c] times, from any state *)
Definition costs {A} (l p c : nat) (m : M A) : Prop :=
  ∀ st, (n_lookups (m st).2 ≤ n_lookups st + l)%nat ∧
        (n_posts (m st).2 ≤ n_posts st + p)%nat ∧
        (n_clock (m st).2 ≤ n_clock st + c)%nat.

(** A monitor with another health-check interval *)
Definition with_health_check_interval (interval : Z) (self : DockerMonitor)
    : DockerMonitor :=
  {| webhook_url := webhook_url self;
     monitored_containers := monitored_containers self;
     notification_level := notification_level self;
     health_check_interval := interval;
     max_retries := max_retries self;
     retry_delay := retry_delay self |}.

(** ** Further example inputs *)

(** Decimal digits to a number, for the example hosts *)
Fixpoint digits_value (acc : Z) (s : string) : option Z :=
  match s with
  | EmptyString => Some acc
  | String c rest =>
      let code := Z.of_nat (nat_of_ascii c) in
      if bool_decide (48 ≤ code ≤ 57) then digits_value (10 * acc + (code - 48)) rest
      else None
  end.

Definition example_int (s : string) : option Z :=
  match s with
  | EmptyString => None
  | _ => digits_value 0 s
  end.

Definition example_host (env : gmap string string) (connect : connect_outcome) : Host :=
  {| environ := env; docker_connect := connect;
     py_int := example_int; py_lower := λ s, s |}.

(** Only the webhook URL is set. *)
Definition url_only : gmap string string :=
  <["DISCORD_WEBHOOK_URL" := "https://discord.example/api/webhooks/1"]> ∅.

(** No attempt allowed *)
Definition no_retry_monitor : DockerMonitor :=
  {| webhook_url := webhook_url default_monitor;
     monitored_containers := "*";
     notification_level := "all";
     health_check_interval := 300;
     max_retries := 0;
     retry_delay := 5 |}.

(** The first request raises something that is no [RequestException]. *)
Definition hook_crash (k : nat) : post_outcome :=
  PostRaises (OtherException "boom").

(** A container whose attributes are empty *)
Definition bare_container : Container.t :=
  {| Container.image_tags := []; Container.status := "created"; Container.attrs := ∅ |}.

(** An event of the network subsystem, without any of the other keys *)
Definition network_event : gmap string pyobj := <["Type" := Str "network"]> ∅.

(** An event without [Type] *)
Definition untyped_event : gmap string pyobj := <["Action" := Str "start"]> ∅.

(** A container event whose [Actor] is a string *)
Definition flat_actor_event : gmap string pyobj :=
  <["Type" := Str "container"]> (<["Action" := Str "start"]> (<["Actor" := Str "abc"]> ∅)).

(** A container event whose [Action] is a list *)
Definition list_action_event : gmap string pyobj :=
  <["Action" := List []]> start_event.

(** [NOTIFICATION_LEVEL=start,die] *)
Definition start_die_monitor : DockerMonitor :=
  {| webhook_url := webhook_url default_monitor;
     monitored_containers := "*";
     notification_level := "start,die";
     health_check_interval := 300;
     max_retries := 3;
     retry_delay := 5 |}.


(** * Properties *)

(** ** The delivery client *)

Section Delivery.
Context (w : World) (self : DockerMonitor).

Lemma length_range n : List.length (range n) = Z.to_nat n.
Proof. unfold range. by rewrite length_fmap, length_seq. Qed.

Lemma acknowledged_not_failed o : acknowledged o = true → failed_attempt o = false.
Proof. destruct o as [c|e]; simpl; [|done]. by intros ->. Qed.

Lemma sleep_accepted secs : sleep_accepts w secs → sleep_error w secs = None.
Proof.
  intros [Hmin Hmax]. unfold sleep_error.
  rewrite bool_decide_eq_false_2 by lia. by rewrite bool_decide_eq_false_2 by lia.
Qed.

Lemma lookup_range n i attempt : range n !! i = Some attempt → attempt = Z.of_nat i.
Proof.
  unfold range. rewrite list_lookup_fmap. intros Hi.
  destruct (seq 0 (Z.to_nat n) !! i) as [k|] eqn:Hseq; [|done].
  apply lookup_seq in Hseq as [-> _]. simpl in Hi. by injection Hi as <-.
Qed.

(** One turn of the loop, by what the request gives. *)
Lemma send_attempts_cons payload attempt attempts st :
  send_attempts w self payload (attempt :: attempts) st =
    let posted := {| n_posts := S (n_posts st); n_lookups := n_lookups st;
                     n_clock := n_clock st;
                     out := out st ++ [Post (webhook_url self) payload 10] |} in
    match webhook w (n_posts st) with
    | Response code =>
        if bool_decide (code = 204) then (Return true, posted)
        else send_attempts w self payload attempts
               (record (Log WARNING ("Discord API returned status code: " ++ pretty code))
                  posted)
    | PostRaises (RequestException msg) =>
        let logged :=
          record (Log ERROR ("Attempt " ++ pretty (attempt + 1) ++ "/"
                             ++ pretty (max_retries self) ++ " failed: "
                             ++ exception_str w (RequestException msg))) posted in
        if bool_decide (attempt < max_retries self - 1) then
          match sleep_error w (retry_delay self) with
          | Some e => (Raise (Exc e), logged)
          | None => send_attempts w self payload attempts
                      (record (Sleep (retry_delay self)) logged)
          end
        else send_attempts w self payload attempts logged
    | PostRaises e => (Raise (Exc e), posted)
    end.
Proof.
  cbn [send_attempts]. unfold requests_post.
  destruct (webhook w (n_posts st)) as [code|e].
  - by case_bool_decide.
  - destruct e; try done.
    unfold bind, log, emit, sleep, raise, ret. cbv zeta.
    case_bool_decide; [|done]. by destruct (sleep_error w (retry_delay self)).
Qed.

(** The loop is decided by the first attempt that does not simply fail.
    The attempts before it have failed, it is the last request made, and:
    [True] is returned when it is acknowledged; an exception that is no
    transport error is raised to the caller; and so is the exception of
    [time.sleep] when the attempt, not the final one, ends in a transport
    error and the delay is rejected. Without such an attempt every request
    of the budget is made and [False] returned. *)
Lemma send_attempts_first payload attempts st :
  match send_attempts w self payload attempts st with
  | (Return true, st') =>
      ∃ i, (i < List.length attempts)%nat ∧ n_posts st' = (n_posts st + S i)%nat ∧
           acknowledged (webhook w (n_posts st + i)) = true ∧
           ∀ j, (j < i)%nat → failed_attempt (webhook w (n_posts st + j)) = true
  | (Return false, st') =>
      n_posts st' = (n_posts st + List.length attempts)%nat ∧
      ∀ j, (j < List.length attempts)%nat → failed_attempt (webhook w (n_posts st + j)) = true
  | (Raise r, st') =>
      ∃ i e, (i < List.length attempts)%nat ∧ n_posts st' = (n_posts st + S i)%nat ∧
             r = Exc e ∧
             (∀ j, (j < i)%nat → failed_attempt (webhook w (n_posts st + j)) = true) ∧
             ((webhook w (n_posts st + i) = PostRaises e ∧
               failed_attempt (PostRaises e) = false)
              ∨ (∃ msg attempt,
                   webhook w (n_posts st + i) = PostRaises (RequestException msg) ∧
                   attempts !! i = Some attempt ∧ attempt < max_retries self - 1 ∧
                   sleep_error w (retry_delay self) = Some e))
  end.
Proof.
  revert st. induction attempts as [|attempt attempts IH]; intros st.
  - simpl. split; [lia|]. intros j Hj. lia.
  - assert (Hnext : ∀ st1, n_posts st1 = S (n_posts st) →
              failed_attempt (webhook w (n_posts st)) = true →
              match send_attempts w self payload attempts st1 with
              | (Return true, st') =>
                  ∃ i, (i < List.length (attempt :: attempts))%nat ∧
                       n_posts st' = (n_posts st + S i)%nat ∧
                       acknowledged (webhook w (n_posts st + i)) = true ∧
                       ∀ j, (j < i)%nat → failed_attempt (webhook w (n_posts st + j)) = true
              | (Return false, st') =>
                  n_posts st' = (n_posts st + List.length (attempt :: attempts))%nat ∧
                  ∀ j, (j < List.length (attempt :: attempts))%nat →
                       failed_attempt (webhook w (n_posts st + j)) = true
              | (Raise r, st') =>
                  ∃ i e, (i < List.length (attempt :: attempts))%nat ∧
                         n_posts st' = (n_posts st + S i)%nat ∧
                         r = Exc e ∧
                         (∀ j, (j < i)%nat →
                               failed_attempt (webhook w (n_posts st + j)) = true) ∧
                         ((webhook w (n_posts st + i) = PostRaises e ∧
                           failed_attempt (PostRaises e) = false)
                          ∨ (∃ msg attempt',
                               webhook w (n_posts st + i) = PostRaises (RequestException msg) ∧
                               (attempt :: attempts) !! i = Some attempt' ∧
                               attempt' < max_retries self - 1 ∧
                               sleep_error w (retry_delay self) = Some e))
              end).
    { intros st1 Hposts Hfailed. specialize (IH st1). rewrite Hposts in IH.
      assert (Hbefore : ∀ i, (∀ j, (j < i)%nat →
                failed_attempt (webhook w (S (n_posts st) + j)) = true) →
                ∀ j, (j < S i)%nat → failed_attempt (webhook w (n_posts st + j)) = true).
      { intros i Hall [|j] Hj; [by rewrite Nat.add_0_r|].
        rewrite <- Nat.add_succ_comm. apply Hall. lia. }
      destruct (send_attempts w self payload attempts st1) as [[[|]|r] st'].
      - destruct IH as (i & Hi & Hcount & Hack & Hall). exists (S i).
        replace (n_posts st + S i)%nat with (S (n_posts st) + i)%nat by lia.
        split; [simpl; lia|]. split; [lia|]. split; [done|]. by apply Hbefore.
      - destruct IH as [Hcount Hall]. split; [simpl; lia|].
        intros [|j] Hj; [by rewrite Nat.add_0_r|].
        replace (n_posts st + S j)%nat with (S (n_posts st) + j)%nat by lia.
        apply Hall. simpl in Hj. lia.
      - destruct IH as (i & e & Hi & Hcount & Hr & Hall & Hcause). exists (S i), e.
        replace (n_posts st + S i)%nat with (S (n_posts st) + i)%nat by lia.
        split; [simpl; lia|]. split; [lia|]. split; [done|].
        split; [by apply Hbefore|]. exact Hcause. }
    rewrite send_attempts_cons. cbv zeta.
    destruct (webhook w (n_posts st)) as [code|e] eqn:Hw.
    + case_bool_decide as Hcode.
      * exists 0%nat. rewrite Nat.add_0_r, Hw. cbn [n_posts acknowledged].
        split; [simpl; lia|]. split; [lia|]. split; [by apply bool_decide_eq_true|].
        intros j Hj. lia.
      * apply Hnext; [done|]. simpl. by rewrite bool_decide_eq_false_2.
    + destruct e;
        try (exists 0%nat; eexists; rewrite Nat.add_0_r, Hw; cbn [n_posts];
             split; [simpl; lia|]; split; [lia|]; split; [done|];
             split; [intros j Hj; lia|]; by left).
      case_bool_decide as Hlast; [|by apply Hnext].
      destruct (sleep_error w (retry_delay self)) as [e|] eqn:Hsleep; [|by apply Hnext].
      exists 0%nat, e. rewrite Nat.add_0_r, Hw. cbn [n_posts record].
      split; [simpl; lia|]. split; [lia|]. split; [done|].
      split; [intros j Hj; lia|]. right. by exists msg, attempt.
Qed.

(** The requests of the loop carry the payload, and the counter counts
    them. *)
Lemma send_attempts_requests payload attempts st :
  ∃ made, (made ≤ List.length attempts)%nat ∧
          n_posts (send_attempts w self payload attempts st).2 = (n_posts st + made)%nat ∧
          posts (out (send_attempts w self payload attempts st).2)
          = (posts (out st) ++ replicate made payload)%list.
Proof.
  assert (Hposts : ∀ l1 l2, posts (l1 ++ l2) = (posts l1 ++ posts l2)%list).
  { intros l1 l2. induction l1 as [|e l1 IH]; [done|]. destruct e; simpl; by rewrite IH. }
  revert st. induction attempts as [|attempt attempts IH]; intros st.
  - exists 0%nat. simpl. rewrite app_nil_r. split; [done|]. split; [lia|done].
  - assert (Hnext : ∀ st1, n_posts st1 = S (n_posts st) →
              posts (out st1) = (posts (out st) ++ [payload])%list →
              ∃ made, (made ≤ List.length (attempt :: attempts))%nat ∧
                n_posts (send_attempts w self payload attempts st1).2
                  = (n_posts st + made)%nat ∧
                posts (out (send_attempts w self payload attempts st1).2)
                  = (posts (out st) ++ replicate made payload)%list).
    { intros st1 Hcount Hout. destruct (IH st1) as (made & Hmade & Hn & Hp).
      exists (S made). split; [simpl; lia|]. split; [lia|].
      rewrite Hp, Hout, <- app_assoc. done. }
    assert (Hone : ∀ trace,
              posts ((out st ++ [Post (webhook_url self) payload 10]) ++ trace)
              = (posts (out st) ++ [payload] ++ posts trace)%list).
    { intros trace. by rewrite !Hposts, <- app_assoc. }
    rewrite send_attempts_cons. cbv zeta.
    destruct (webhook w (n_posts st)) as [code|e].
    + case_bool_decide.
      * exists 1%nat. cbn [snd n_posts out]. split; [simpl; lia|]. split; [lia|].
        by rewrite Hposts.
      * apply Hnext; [done|]. cbn [record out]. by rewrite Hone, app_nil_r.
    + destruct e;
        try (exists 1%nat; cbn [snd n_posts out]; split; [simpl; lia|]; split; [lia|];
             by rewrite Hposts).
      case_bool_decide.
      * destruct (sleep_error w (retry_delay self)).
        -- exists 1%nat. cbn [snd record n_posts out]. split; [simpl; lia|].
           split; [lia|]. by rewrite Hone, app_nil_r.
        -- apply Hnext; [done|]. cbn [record out].
           by rewrite <- app_assoc, Hone, app_nil_r.
      * apply Hnext; [done|]. cbn [record out]. by rewrite Hone, app_nil_r.
Qed.

(** The call, by the first attempt that does not simply fail; the budget
    is [max_retries] attempts. *)
Lemma send_discord_embed_first title description color fields st :
  let budget := Z.to_nat (max_retries self) in
  match send_discord_embed w self title description color fields st with
  | (Return true, st') =>
      ∃ i, (i < budget)%nat ∧ n_posts st' = (n_posts st + S i)%nat ∧
           acknowledged (webhook w (n_posts st + i)) = true ∧
           ∀ j, (j < i)%nat → failed_attempt (webhook w (n_posts st + j)) = true
  | (Return false, st') =>
      n_posts st' = (n_posts st + budget)%nat ∧
      ∀ j, (j < budget)%nat → failed_attempt (webhook w (n_posts st + j)) = true
  | (Raise r, st') =>
      ∃ i e, (i < budget)%nat ∧ n_posts st' = (n_posts st + S i)%nat ∧
             r = Exc e ∧
             (∀ j, (j < i)%nat → failed_attempt (webhook w (n_posts st + j)) = true) ∧
             ((webhook w (n_posts st + i) = PostRaises e ∧
               failed_attempt (PostRaises e) = false)
              ∨ (∃ msg, webhook w (n_posts st + i) = PostRaises (RequestException msg) ∧
                        (S i < budget)%nat ∧
                        sleep_error w (retry_delay self) = Some e))
  end.
Proof.
  intros budget. subst budget. unfold send_discord_embed, bind, clock.
  cbv beta iota zeta.
  rewrite <- (length_range (max_retries self)).
  match goal with |- context [send_attempts w self ?p ?l ?s] =>
    pose proof (send_attempts_first p l s) as Hfirst;
    destruct (send_attempts w self p l s) as [[[|]|r] st'] end;
    cbn [tick n_posts] in Hfirst; [done|done|].
  destruct Hfirst as (i & e & Hi & Hcount & Hr & Hall & Hcause).
  exists i, e. repeat (split; [done|]).
  destruct Hcause as [?|(msg & attempt & Hw & Hlookup & Hlast & Hsleep)]; [by left|].
  right. exists msg. split; [done|]. split; [|done].
  apply lookup_range in Hlookup. rewrite length_range. lia.
Qed.

(** The requests of a call carry the one embed built from its arguments,
    and the counter counts them. *)
Lemma send_discord_embed_requests title description color fields st :
  ∃ made, (made ≤ Z.to_nat (max_retries self))%nat ∧
    n_posts (send_discord_embed w self title description color fields st).2
      = (n_posts st + made)%nat ∧
    posts (out (send_discord_embed w self title description color fields st).2)
      = (posts (out st)
         ++ replicate made [ {| embed_title := title;
                                embed_description := description;
                                embed_color := color;
                                embed_fields := fields;
                                embed_timestamp :=
                                  strftime w (time_time w (n_clock st)) |} ])%list.
Proof.
  unfold send_discord_embed, bind, clock. cbv beta iota zeta.
  match goal with |- context [send_attempts _ _ ?p ?l ?s] =>
    destruct (send_attempts_requests p l s) as (made & Hmade & Hcount & Hposts) end.
  rewrite length_range in Hmade. by exists made.
Qed.

(** A call with a positive budget makes at least one request. *)
Lemma send_attempts_made payload attempt attempts st :
  (n_posts st < n_posts (send_attempts w self payload (attempt :: attempts) st).2)%nat.
Proof.
  assert (Hmono : ∀ l s, (n_posts s ≤ n_posts (send_attempts w self payload l s).2)%nat).
  { intros l s. destruct (send_attempts_requests payload l s) as (m & _ & -> & _). lia. }
  rewrite send_attempts_cons. cbv zeta.
  repeat case_match; cbn [snd n_posts record]; try lia;
    (eapply Nat.lt_le_trans; [|apply Hmono]); cbn [n_posts record]; lia.
Qed.

Lemma send_discord_embed_requests_some title description color fields st :
  0 < max_retries self →
  ∃ made, (1 ≤ made ≤ Z.to_nat (max_retries self))%nat ∧
    posts (out (send_discord_embed w self title description color fields st).2)
      = (posts (out st)
         ++ replicate made [ {| embed_title := title;
                                embed_description := description;
                                embed_color := color;
                                embed_fields := fields;
                                embed_timestamp :=
                                  strftime w (time_time w (n_clock st)) |} ])%list.
Proof.
  intros Hbudget.
  destruct (send_discord_embed_requests title description color fields st)
    as (made & Hmade & Hcount & Hposts).
  exists made. split; [|done]. split; [|done].
  revert Hcount. unfold send_discord_embed, bind, clock. cbv beta iota zeta.
  unfold range. destruct (Z.to_nat (max_retries self)) as [|n] eqn:Hn; [lia|].
  cbn [seq fmap list_fmap].
  match goal with |- context [send_attempts _ _ ?p (?a :: ?l) ?s] =>
    pose proof (send_attempts_made p a l s) as Hsome end.
  cbn [tick n_posts] in Hsome. lia.
Qed.

(** With responses and transport errors only, and a delay that
    [time.sleep] accepts, the call returns. *)
Lemma send_discord_embed_total title description color fields st :
  sleep_accepts w (retry_delay self) →
  (∀ i, (i < Z.to_nat (max_retries self))%nat →
        acknowledged (webhook w (n_posts st + i))
        || failed_attempt (webhook w (n_posts st + i)) = true) →
  ∃ b st', send_discord_embed w self title description color fields st = (Return b, st').
Proof.
  intros Hdelay Hout.
  pose proof (send_discord_embed_first title description color fields st) as Hfirst.
  cbv zeta in Hfirst.
  destruct (send_discord_embed w self title description color fields st)
    as [[b|r] st']; [by exists b, st'|].
  destruct Hfirst as (i & e & Hi & _ & _ & _ & [[Hw He]|(msg & _ & _ & Hsleep)]).
  - specialize (Hout i Hi). rewrite Hw in Hout. simpl in Hout, He.
    by rewrite He in Hout.
  - by rewrite (sleep_accepted _ Hdelay) in Hsleep.
Qed.

(** When every attempt of the budget fails, and [time.sleep] accepts the
    delay, the call returns [False]. *)
Lemma send_discord_embed_all_failed title description color fields st :
  sleep_accepts w (retry_delay self) →
  (∀ i, (i < Z.to_nat (max_retries self))%nat →
        failed_attempt (webhook w (n_posts st + i)) = true) →
  ∃ st', send_discord_embed w self title description color fields st = (Return false, st').
Proof.
  intros Hdelay Hfail.
  destruct (send_discord_embed_total title description color fields st Hdelay)
    as (b & st' & Hsent).
  { intros i Hi. rewrite (Hfail i Hi). apply orb_true_r. }
  pose proof (send_discord_embed_first title description color fields st) as Hfirst.
  cbv zeta in Hfirst. rewrite Hsent in Hfirst.
  destruct b; [|by exists st'].
  destruct Hfirst as (i & Hi & _ & Hack & _).
  apply acknowledged_not_failed in Hack. rewrite (Hfail i Hi) in Hack. done.
Qed.

(** C1 (amended): with a retry delay that [time.sleep] accepts, and
    responses and transport errors as the webhook's answers,
    [send_discord_embed] never raises: it returns a boolean, [True] if and
    only if one of the [max_retries] attempts receives status 204, and
    [False] if and only if all of them fail (another status code or a
    transport error). The boolean tells what was sent: on [True] the
    acknowledged request is the last one made, the ones before it having
    failed; on [False] all [max_retries] requests were made; each request
    carries the embed built from the arguments. *)
Theorem send_discord_embed_returns title description color fields st :
  sleep_accepts w (retry_delay self) →
  (∀ i, (i < Z.to_nat (max_retries self))%nat →
        acknowledged (webhook w (n_posts st + i))
        || failed_attempt (webhook w (n_posts st + i)) = true) →
  ∃ b st',
    send_discord_embed w self title description color fields st = (Return b, st') ∧
    (b = true ↔ ∃ i, (i < Z.to_nat (max_retries self))%nat
                     ∧ acknowledged (webhook w (n_posts st + i)) = true) ∧
    (b = false ↔ ∀ i, (i < Z.to_nat (max_retries self))%nat
                      → failed_attempt (webhook w (n_posts st + i)) = true) ∧
    ∃ made,
      n_posts st' = (n_posts st + made)%nat ∧
      posts (out st') =
        (posts (out st)
         ++ replicate made [ {| embed_title := title;
                                embed_description := description;
                                embed_color := color;
                                embed_fields := fields;
                                embed_timestamp :=
                                  strftime w (time_time w (n_clock st)) |} ])%list ∧
      if b
      then ∃ i, made = S i ∧ (i < Z.to_nat (max_retries self))%nat ∧
                acknowledged (webhook w (n_posts st + i)) = true ∧
                ∀ j, (j < i)%nat → failed_attempt (webhook w (n_posts st + j)) = true
      else made = Z.to_nat (max_retries self).
Proof.
  intros Hdelay Hout.
  destruct (send_discord_embed_total title description color fields st Hdelay Hout)
    as (b & st' & Hrun).
  pose proof (send_discord_embed_first title description color fields st) as Hfirst.
  destruct (send_discord_embed_requests title description color fields st)
    as (made & _ & Hcount & Hposts).
  cbv zeta in Hfirst. rewrite Hrun in Hfirst, Hcount, Hposts. cbn [snd] in Hcount, Hposts.
  exists b, st'. split; [done|].
  destruct b.
  - destruct Hfirst as (i & Hi & Hmade & Hack & Hall).
    split; [split; [by eauto|done]|]. split.
    + split; [done|]. intros Hfailed. specialize (Hfailed i Hi).
      by rewrite (acknowledged_not_failed _ Hack) in Hfailed.
    + exists made. repeat (split; [done|]). exists i. split; [lia|]. by repeat split.
  - destruct Hfirst as [Hmade Hall].
    split; [|split; [done|]].
    + split; [done|]. intros (i & Hi & Hack). specialize (Hall i Hi).
      by rewrite (acknowledged_not_failed _ Hack) in Hall.
    + exists made. repeat (split; [done|]). lia.
Qed.

(** *** Backoff *)

Lemma sleeps_app l1 l2 : sleeps (l1 ++ l2) = (sleeps l1 + sleeps l2)%nat.
Proof.
  induction l1 as [|e l1 IH]; [done|].
  destruct e; simpl; rewrite IH; lia.
Qed.

(** After a response, whatever its status code, the loop goes on to the
    next attempt at once: attempts answered by responses add no sleep. *)
Lemma send_attempts_responses_no_sleep payload attempts st :
  (∀ i, (i < List.length attempts)%nat → ∃ code, webhook w (n_posts st + i) = Response code) →
  sleeps (out (send_attempts w self payload attempts st).2) = sleeps (out st).
Proof.
  revert st. induction attempts as [|attempt attempts IH]; intros st Hout; [done|].
  destruct (Hout 0%nat ltac:(simpl; lia)) as [code Hw].
  rewrite Nat.add_0_r in Hw.
  cbn [send_attempts]. unfold requests_post. rewrite Hw.
  case_bool_decide.
  - cbn [snd out]. rewrite sleeps_app. simpl. lia.
  - unfold bind at 1. unfold log, emit, record. rewrite IH.
    + cbn [out]. rewrite !sleeps_app. simpl. lia.
    + intros i Hi. cbn [n_posts]. rewrite Nat.add_succ_comm. apply Hout. simpl. lia.
Qed.

(** After a transport error the loop sleeps, unless the attempt was the
    last one: with a delay that [time.sleep] accepts, [m] attempts that all
    end in a transport error add [m - 1] sleeps. *)
Lemma send_attempts_errors_sleep payload k m st :
  sleep_accepts w (retry_delay self) →
  Z.of_nat (k + m) = max_retries self →
  (∀ i, (i < m)%nat → ∃ msg, webhook w (n_posts st + i) = PostRaises (RequestException msg)) →
  ∃ st', send_attempts w self payload (Z.of_nat <$> seq k m) st = (Return false, st') ∧
         sleeps (out st') = (sleeps (out st) + Nat.pred m)%nat.
Proof.
  intros Hdelay. revert k st. induction m as [|m IH]; intros k st Hmax Hout.
  - exists st. split; [done|]. simpl. lia.
  - destruct (Hout 0%nat ltac:(lia)) as [msg Hw].
    rewrite Nat.add_0_r in Hw.
    cbn [seq fmap list_fmap]. rewrite send_attempts_cons. cbv zeta. rewrite Hw.
    rewrite (sleep_accepted _ Hdelay).
    case_bool_decide as Hlast;
      match goal with |- context [send_attempts _ _ _ _ ?s] => set (st1 := s) end;
      (destruct (IH (S k) st1) as (st' & Hrun & Hsleeps);
       [lia | intros i Hi; subst st1; cbn [record n_posts]; rewrite Nat.add_succ_comm;
              apply Hout; lia |]);
      exists st'; (split; [exact Hrun|]); rewrite Hsleeps; subst st1; cbn [record out];
      rewrite !sleeps_app; simpl; lia.
Qed.

(** When every attempt ends in a transport error the client sleeps
    [max_retries - 1] times. *)
Lemma send_discord_embed_errors_sleep title description color fields st :
  sleep_accepts w (retry_delay self) →
  (∀ i, (i < Z.to_nat (max_retries self))%nat →
        ∃ msg, webhook w (n_posts st + i) = PostRaises (RequestException msg)) →
  ∃ st', send_discord_embed w self title description color fields st = (Return false, st') ∧
         sleeps (out st') = (sleeps (out st) + Nat.pred (Z.to_nat (max_retries self)))%nat.
Proof.
  intros Hdelay Hout. unfold send_discord_embed, bind, clock, range.
  destruct (Z.le_gt_cases 0 (max_retries self)) as [Hpos|Hneg].
  - match goal with |- context [send_attempts _ _ ?p _ ?s] =>
      destruct (send_attempts_errors_sleep p 0 (Z.to_nat (max_retries self)) s Hdelay)
        as (st' & Hrun & Hsleeps) end; [lia | exact Hout |].
    by exists st'.
  - replace (Z.to_nat (max_retries self)) with 0%nat by lia.
    eexists. split; [done|]. simpl. lia.
Qed.

(** When every attempt is answered by a response the client never sleeps. *)
Lemma send_discord_embed_responses_no_sleep title description color fields st :
  (∀ i, (i < Z.to_nat (max_retries self))%nat →
        ∃ code, webhook w (n_posts st + i) = Response code) →
  sleeps (out (send_discord_embed w self title description color fields st).2)
  = sleeps (out st).
Proof.
  intros Hout. unfold send_discord_embed, bind, clock.
  rewrite send_attempts_responses_no_sleep; [done|].
  by rewrite length_range.
Qed.

(** *** Requests *)

Lemma posts_app l1 l2 : posts (l1 ++ l2) = (posts l1 ++ posts l2)%list.
Proof.
  induction l1 as [|e l1 IH]; [done|].
  destruct e; simpl; by rewrite IH.
Qed.

(** Every request of the loop carries the payload it was given. *)
Lemma send_attempts_posts payload attempts st :
  ∃ k, (k ≤ List.length attempts)%nat ∧
       posts (out (send_attempts w self payload attempts st).2)
       = (posts (out st) ++ replicate k payload)%list.
Proof.
  destruct (send_attempts_requests payload attempts st) as (k & Hk & _ & Hposts).
  by exists k.
Qed.

(** Every request of [send_discord_embed] carries the one embed built from
    its arguments, stamped with the time of the call. *)
Lemma send_discord_embed_posts title description color fields st :
  ∃ k, (k ≤ Z.to_nat (max_retries self))%nat ∧
       posts (out (send_discord_embed w self title description color fields st).2)
       = (posts (out st)
          ++ replicate k [ {| embed_title := title;
                              embed_description := description;
                              embed_color := color;
                              embed_fields := fields;
                              embed_timestamp := strftime w (time_time w (n_clock st)) |} ])%list.
Proof.
  unfold send_discord_embed, bind, clock.
  match goal with |- context [send_attempts _ _ ?p ?l ?s] =>
    destruct (send_attempts_posts p l s) as (k & Hk & Hposts) end.
  rewrite length_range in Hk. by exists k.
Qed.

End Delivery.

Lemma send_discord_embed_returns_witness :
  ∃ st',
    send_discord_embed (example_world hook_500_500_204 (LookupRaises (NotFound "")))
      default_monitor "title" "description" 0 [] initial_state = (Return true, st') ∧
    n_posts st' = 3%nat.
Proof.
  destruct (send_discord_embed_returns
              (example_world hook_500_500_204 (LookupRaises (NotFound "")))
              default_monitor "title" "description" 0 [] initial_state)
    as (b & st' & Hrun & Htrue & _ & made & Hcount & _ & Hmade).
  - split; simpl; lia.
  - intros i Hi. simpl in Hi.
    destruct i as [|[|[|i]]]; [reflexivity| reflexivity | reflexivity | lia].
  - assert (b = true) as ->.
    { apply Htrue. exists 2%nat. split; [simpl; lia|reflexivity]. }
    exists st'. split; [exact Hrun|].
    destruct Hmade as (i & -> & Hi & Hack & _). simpl in Hi.
    destruct i as [|[|[|i]]]; [discriminate | discriminate | exact Hcount | lia].
Defined.

(** C1, as stated, fails: with a negative retry delay and three attempts
    allowed, a transport error on the first attempt makes [time.sleep]
    raise [ValueError], which leaves [send_discord_embed]. *)
Lemma negative_delay_raises :
  ¬ (∀ (w : World) (self : DockerMonitor) (title description : string) (color : Z)
       (fields : list field) (st : State),
       (∀ i, (i < Z.to_nat (max_retries self))%nat →
             acknowledged (webhook w (n_posts st + i))
             || failed_attempt (webhook w (n_posts st + i)) = true) →
       ∃ b st', send_discord_embed w self title description color fields st
                = (Return b, st')).
Proof.
  intros Hclaim.
  destruct (Hclaim (example_world (hook_always (PostRaises (RequestException "timed out")))
                      (LookupRaises (NotFound "")))
              negative_delay_monitor "title" "description" 0 [] initial_state)
    as (b & st' & Hrun); [by intros i _|].
  vm_compute in Hrun. discriminate.
Qed.

(** C2: the scenario of the claim, run on the code. With three attempts
    allowed and the webhook answering 500, 500, 204, the client returns
    [True] without having slept at all; and when every attempt is answered
    500 it returns [False], again without a single sleep. The backoff is
    taken after a transport error only (see
    [send_discord_embed_errors_sleep]). *)
Theorem send_discord_embed_backoff_scenario :
  let run hook :=
    send_discord_embed (example_world hook (LookupRaises (NotFound "")))
      default_monitor "title" "description" 0 [] initial_state in
  (run hook_500_500_204).1 = Return true ∧
  sleeps (out (run hook_500_500_204).2) = 0%nat ∧
  List.length (posts (out (run hook_500_500_204).2)) = 3%nat ∧
  (run (hook_always (Response 500))).1 = Return false ∧
  sleeps (out (run (hook_always (Response 500))).2) = 0%nat ∧
  (run (hook_always (PostRaises (RequestException "timed out")))).1 = Return false ∧
  sleeps (out (run (hook_always (PostRaises (RequestException "timed out")))).2) = 2%nat.
Proof. vm_compute. repeat split. Qed.

(** ** The allow-lists *)

Section Filter.

(** [split_comma] is [str.split(',')]: joining the pieces with commas gives
    the string back, no piece holds a comma, and these two facts determine
    the pieces. *)
Lemma split_comma_nonempty s : split_comma s ≠ [].
Proof. destruct s as [|c s]; simpl; [done|]. case_bool_decide; [done|]. by case_match. Qed.

Lemma concat_split_comma s : String.concat "," (split_comma s) = s.
Proof.
  induction s as [|c s IH]; [done|]. simpl.
  pose proof (split_comma_nonempty s) as Hne.
  case_bool_decide as Hc.
  - subst c. simpl. destruct (split_comma s) eqn:Hs; [done|]. by rewrite IH.
  - destruct (split_comma s) as [|piece pieces] eqn:Hs; [done|].
    destruct pieces; by rewrite <- IH.
Qed.

Lemma split_comma_comma_free s : Forall (λ piece, comma_free piece = true) (split_comma s).
Proof.
  induction s as [|c s IH]; simpl; [by repeat constructor|].
  case_bool_decide as Hc; [by constructor|].
  destruct (split_comma s) as [|piece pieces].
  - repeat constructor. simpl. by rewrite bool_decide_eq_false_2.
  - inversion IH; subst. constructor; [|done].
    simpl. by rewrite bool_decide_eq_false_2.
Qed.

Lemma split_comma_piece piece : comma_free piece = true → split_comma piece = [piece].
Proof.
  induction piece as [|c piece IH]; simpl; [done|].
  case_bool_decide; simpl; [done|]. intros Hfree. by rewrite IH.
Qed.

Lemma split_comma_app piece s :
  comma_free piece = true → split_comma (piece ++ "," ++ s) = piece :: split_comma s.
Proof.
  induction piece as [|c piece IH]; simpl; [done|].
  case_bool_decide; simpl; [done|]. intros Hfree. by rewrite IH.
Qed.

Lemma split_comma_concat pieces :
  pieces ≠ [] → Forall (λ piece, comma_free piece = true) pieces →
  split_comma (String.concat "," pieces) = pieces.
Proof.
  induction pieces as [|piece pieces IH]; [done|]. intros _ Hfree.
  inversion Hfree as [|? ? Hpiece Hpieces]; subst.
  destruct pieces as [|piece' pieces].
  - simpl. by apply split_comma_piece.
  - change (String.concat "," (piece :: piece' :: pieces))
      with (piece ++ "," ++ String.concat "," (piece' :: pieces)).
    rewrite split_comma_app by done. f_equal. by apply IH.
Qed.

Lemma py_eq_str_true v s : py_eq_str v s = true ↔ v = Str s.
Proof.
  destruct v; simpl; try (split; [done|by intros ?]).
  rewrite bool_decide_eq_true. split; [by intros ->|by intros [= ->]].
Qed.

Lemma in_list_true v l : in_list v l = true ↔ ∃ s, v = Str s ∧ s ∈ l.
Proof.
  destruct v; simpl; try (split; [done|by intros (? & ? & ?)]).
  rewrite bool_decide_eq_true. split; [by eauto|]. by intros (? & [= ->] & ?).
Qed.

(** C3 (amended): the container allow-list ["*"] accepts every container
    name and the action allow-list ["all"] accepts every action; any other
    allow-list accepts a name or an action if and only if it is one of the
    pieces of the comma-separated list, compared exactly. *)
Theorem allow_lists_accept (self : DockerMonitor) (container_name action : pyobj) :
  (container_skipped self container_name = false ↔
     monitored_containers self = "*"
     ∨ ∃ s, container_name = Str s ∧ s ∈ split_comma (monitored_containers self)) ∧
  (action_skipped self action = false ↔
     notification_level self = "all"
     ∨ ∃ s, action = Str s ∧ s ∈ split_comma (notification_level self)).
Proof.
  unfold container_skipped, action_skipped.
  rewrite !andb_false_iff, !negb_false_iff, !in_list_true, !bool_decide_eq_false.
  split; (split; (intros [H|H]; [left|right]; [|done..])).
  - by destruct (decide (monitored_containers self = "*")).
  - by intros ?.
  - by destruct (decide (notification_level self = "all")).
  - by intros ?.
Qed.

(** C3, as stated, fails on the action allow-list: ["*"] is an ordinary
    one-piece list there, and the action [start] is not its piece. *)
Lemma star_is_no_action_wildcard :
  ¬ (∀ (self : DockerMonitor) (container_name action : pyobj),
       (monitored_containers self = "*" → container_skipped self container_name = false) ∧
       (notification_level self = "*" → action_skipped self action = false)).
Proof.
  intros Hclaim.
  destruct (Hclaim star_level_monitor (Str "web") (Str "start")) as [_ Hstar].
  specialize (Hstar eq_refl). vm_compute in Hstar. discriminate.
Qed.

End Filter.

(** ** The status lookup *)

Section Enricher.
Context (w : World).

(** The dict and string operations raise Python exceptions only. *)
Lemma dict_getitem_no_interrupt {A} (d : gmap string A) key :
  dict_getitem d key ≠ Raise KeyboardInterrupt.
Proof. unfold dict_getitem. by case_match. Qed.

Lemma getitem_no_interrupt v key : getitem v key ≠ Raise KeyboardInterrupt.
Proof. destruct v; try done. apply dict_getitem_no_interrupt. Qed.

Lemma get_no_interrupt v key dflt : get v key dflt ≠ Raise KeyboardInterrupt.
Proof. by destruct v. Qed.

Lemma created_text_no_interrupt v : created_text v ≠ Raise KeyboardInterrupt.
Proof. by destruct v. Qed.

Ltac no_interrupt :=
  match goal with
  | H : dict_getitem _ _ = Raise KeyboardInterrupt |- _ =>
      by destruct (dict_getitem_no_interrupt _ _ H)
  | H : getitem _ _ = Raise KeyboardInterrupt |- _ =>
      by destruct (getitem_no_interrupt _ _ H)
  | H : get _ _ _ = Raise KeyboardInterrupt |- _ =>
      by destruct (get_no_interrupt _ _ _ H)
  | H : created_text _ = Raise KeyboardInterrupt |- _ =>
      by destruct (created_text_no_interrupt _ H)
  end.

(** The lookup always returns a status. *)
Lemma get_container_status_total (container_id : pyobj) (st : State) :
  ∃ info st', get_container_status w container_id st = (Return info, st').
Proof.
  unfold get_container_status, container_status_of, client_containers_get.
  unfold bind at 1.
  destruct (containers_get w (n_lookups st) container_id) as [c|e].
  - unfold bind, lift, ret, log, emit, record.
    repeat case_match; simplify_eq; try no_interrupt; by eexists _, _.
  - destruct e; by eexists _, _.
Qed.

(** C4: [get_container_status] never raises. Whatever the lookup does, a
    status is returned: the one with all five fields ["unknown"] when the
    lookup raises [NotFound], the one with all five fields ["error"] when
    it raises anything else; and the two differ. *)
Theorem get_container_status_never_raises (container_id : pyobj) (st : State) :
  ∃ info st',
    get_container_status w container_id st = (Return info, st') ∧
    match containers_get w (n_lookups st) container_id with
    | LookupRaises (NotFound _) =>
        info = {| image := Str "unknown"; status := Str "unknown";
                  health := Str "unknown"; created := Str "unknown";
                  platform := Str "unknown" |}
    | LookupRaises _ =>
        info = {| image := Str "error"; status := Str "error";
                  health := Str "error"; created := Str "error";
                  platform := Str "error" |}
    | Found _ => True
    end ∧
    unknown_status ≠ error_status.
Proof.
  unfold get_container_status, container_status_of, client_containers_get.
  unfold bind at 1.
  destruct (containers_get w (n_lookups st) container_id) as [c|e].
  - unfold bind, lift, ret, log, emit, record.
    repeat case_match; simplify_eq; try no_interrupt;
      eexists _, _; (split; [reflexivity|]); (split; [exact I|discriminate]).
  - destruct e; eexists _, _; (split; [reflexivity|]); (split; [reflexivity|discriminate]).
Qed.

(** [slice_to] counts characters, not bytes: a character of several
    bytes is kept or dropped whole. *)
Lemma slice_to_characters :
  slice_to 3 "añob" = "año" ∧ String.length "año" = 4%nat ∧
  slice_to 19 "2024-01-01T12:00:00.000Z" = "2024-01-01T12:00:00".
Proof. repeat split. Qed.

(** On a string of one-byte characters, as the daemon's timestamps are,
    the slice is the first [n] bytes. *)
Lemma slice_to_one_byte n s :
  (∀ i c, String.get i s = Some c → is_continuation c = false) →
  slice_to n s = substring 0 n s.
Proof.
  revert n. induction s as [|c s IH]; intros n Hbytes; [by destruct n|].
  cbn [slice_to]. rewrite (Hbytes 0%nat c eq_refl).
  destruct n as [|n]; [done|]. cbn [substring]. f_equal.
  apply IH. intros i c' Hget. by apply (Hbytes (S i)).
Qed.

(** C8: on a successful lookup of a container whose [Created] attribute
    is a string (and whose [State] and [Health], where present, are
    objects), the status holds: the first image tag, or ["untagged"] when
    there is none; the container's status; the health check's [Status], or
    ["N/A"] when no health check is reported; the first 19 characters of
    [Created] with ['T'] replaced by a space; and [Platform], or ["N/A"]
    when absent. *)
Theorem get_container_status_found (container_id : pyobj) (st : State)
    (c : Container.t) (created_at : string)
    (state health_check : option (gmap string pyobj)) :
  containers_get w (n_lookups st) container_id = Found c →
  Container.attrs c !! "Created" = Some (Str created_at) →
  Container.attrs c !! "State" = Dict <$> state →
  default ∅ state !! "Health" = Dict <$> health_check →
  ∃ info st',
    get_container_status w container_id st = (Return info, st') ∧
    image info = Str (match Container.image_tags c with
                      | tag :: _ => tag
                      | [] => "untagged"
                      end) ∧
    status info = Str (Container.status c) ∧
    health info = match health_check with
                  | Some h => default (Str "N/A") (h !! "Status")
                  | None => Str "N/A"
                  end ∧
    created info = Str (replace_char "T" " " (slice_to 19 created_at)) ∧
    platform info = default (Str "N/A") (Container.attrs c !! "Platform").
Proof.
  intros Hfound Hcreated Hstate Hhealth.
  unfold get_container_status, container_status_of, client_containers_get.
  unfold bind at 1. rewrite Hfound.
  unfold bind, lift, ret. cbn [get getitem dict_getitem].
  rewrite Hstate.
  destruct state as [state|];
    cbn [fmap option_fmap option_map from_option id get] in *;
    rewrite Hhealth;
    destruct health_check as [h|]; cbn [fmap option_fmap option_map from_option id get];
    unfold dict_getitem; rewrite Hcreated; cbn [created_text];
    eexists _, _; (split; [reflexivity|]); cbn [image status health created platform];
    by rewrite ?lookup_empty.
Qed.


(** The lookup sends nothing and leaves the clock alone. *)
Lemma get_container_status_quiet (container_id : pyobj) (st st1 : State) r :
  get_container_status w container_id st = (r, st1) →
  posts (out st1) = posts (out st) ∧ n_clock st1 = n_clock st ∧
  n_posts st1 = n_posts st ∧
  ∃ trace, out st1 = (out st ++ ContainersGet container_id :: trace)%list.
Proof.
  unfold get_container_status, container_status_of, client_containers_get.
  unfold bind at 1.
  destruct (containers_get w (n_lookups st) container_id) as [c|e].
  - unfold bind, lift, ret, log, emit, record.
    repeat case_match; simplify_eq; try no_interrupt; intros [= <- <-];
      cbn [snd out n_clock n_posts];
      rewrite ?posts_app, ?app_nil_r; simpl; rewrite ?app_nil_r, <- ?app_assoc;
      (split; [done|]); (split; [done|]); (split; [done|]); eexists; reflexivity.
  - destruct e; unfold bind, log, emit, record, ret; intros [= <- <-];
      cbn [snd out n_clock n_posts];
      rewrite ?posts_app, ?app_nil_r; simpl; rewrite ?app_nil_r, <- ?app_assoc;
      (split; [done|]); (split; [done|]); (split; [done|]); eexists; reflexivity.
Qed.

End Enricher.

Lemma get_container_status_found_witness :
  ∃ info st',
    get_container_status (example_world hook_500_500_204 (Found web_container))
      (Str "abc") initial_state = (Return info, st') ∧
    image info = Str "web:latest" ∧
    status info = Str "running" ∧
    health info = Str "N/A" ∧
    created info = Str "2024-01-01 12:00:00" ∧
    platform info = Str "linux".
Proof.
  apply (get_container_status_found
           (example_world hook_500_500_204 (Found web_container))
           (Str "abc") initial_state web_container "2024-01-01T12:00:00.000Z"
           (Some (<["Status" := Str "running"]> ∅)) None);
    reflexivity.
Defined.

(** ** The event loop *)

Section Loop.
Context (w : World) (self : DockerMonitor).

Lemma event_configs_None a : event_configs !! a = None ↔ a ∉ template_actions.
Proof.
  unfold event_configs, template_actions.
  rewrite !lookup_insert_None, lookup_empty, !not_elem_of_cons.
  rewrite elem_of_nil. intuition congruence.
Qed.

Lemma event_configs_Some a : is_Some (event_configs !! a) ↔ a ∈ template_actions.
Proof.
  rewrite <- not_eq_None_Some, event_configs_None.
  destruct (decide (a ∈ template_actions)); tauto.
Qed.

(** The filter part of the loop body, for a container event whose [Actor]
    holds an [Attributes] object. *)
Lemma handle_event_container event actor attributes action st :
  event !! "Type" = Some (Str "container") →
  event !! "Actor" = Some (Dict actor) →
  actor !! "Attributes" = Some (Dict attributes) →
  event !! "Action" = Some action →
  handle_event w self event st =
    if container_skipped self (name_of attributes) then (Return tt, st)
    else if action_skipped self action then (Return tt, st)
    else notify w self event (name_of attributes) action st.
Proof.
  intros Htype Hactor Hattrs Haction.
  unfold handle_event, bind, lift, dict_getitem.
  rewrite Htype. cbn [py_eq_str negb]. rewrite bool_decide_eq_true_2 by done.
  cbn [negb]. rewrite Hactor. cbn [getitem]. unfold dict_getitem. rewrite Hattrs.
  cbn [get]. rewrite Haction. fold (name_of attributes).
  by repeat case_match.
Qed.

(** An action without a template ends the body at once. *)
Lemma notify_unknown event container_name a st :
  event_configs !! a = None →
  notify w self event container_name (Str a) st = (Return tt, st).
Proof.
  intros Hnone. unfold notify, bind, lift. cbn [in_dict].
  rewrite bool_decide_eq_false_2; [done|]. rewrite Hnone. by intros [? ?].
Qed.

(** An action with a template: the status is looked up, the clock read,
    the fields built and the embed handed to [send_discord_embed]. *)
Lemma notify_known event actor attributes container_name a event_config container_id st :
  event !! "Actor" = Some (Dict actor) →
  actor !! "Attributes" = Some (Dict attributes) →
  event !! "id" = Some container_id →
  event_configs !! a = Some event_config →
  ∃ info st1,
    get_container_status w container_id st = (Return info, st1) ∧
    notify w self event container_name (Str a) st =
      (let* sent :=
         send_discord_embed w self
           (format_name (title event_config) (to_str w container_name))
           (format_name (description event_config) (to_str w container_name))
           (color event_config)
           (base_fields (Str a) info (time_time w (n_clock st1))
            ++ if bool_decide (a = "die")
               then [ {| name := "Exit Code";
                         value := default (Str "Unknown") (attributes !! "exitCode");
                         inline := false |} ]
               else [])%list in
       if negb sent
       then log ERROR ("Failed to send notification for " ++ to_str w container_name
                       ++ " " ++ a)
       else ret tt) (tick st1).
Proof.
  intros Hactor Hattrs Hid Hconfig.
  destruct (get_container_status_total w container_id st)
    as (info & st1 & Hstatus).
  exists info, st1. split; [done|].
  unfold notify. unfold bind at 1. unfold lift at 1. cbn [in_dict].
  rewrite bool_decide_eq_true_2 by (by rewrite Hconfig).
  unfold bind at 1. unfold lift at 1. unfold dict_getitem at 1. rewrite Hid.
  unfold bind at 1. rewrite Hstatus.
  unfold bind at 1. unfold clock at 1.
  cbn [py_eq_str dict_getitem_obj to_str].
  case_bool_decide as Hdie.
  - unfold bind at 1. unfold bind at 1. unfold bind at 1. unfold bind at 1.
    unfold lift at 1. unfold dict_getitem at 1. rewrite Hactor.
    unfold lift at 1. cbn [getitem]. unfold dict_getitem at 1. rewrite Hattrs.
    unfold lift at 1. cbn [get]. unfold ret at 1.
    unfold bind at 1. unfold lift at 1. unfold dict_getitem at 1. rewrite Hconfig.
    done.
  - unfold bind at 1. unfold ret at 1.
    unfold bind at 1. unfold lift at 1. unfold dict_getitem at 1. rewrite Hconfig.
    by rewrite app_nil_r.
Qed.

(** *** The loop around the body *)

Lemma monitor_loop_continue event stream st st' :
  handle_event w self event st = (Return tt, st') →
  monitor_loop w self (Yield event :: stream) st = monitor_loop w self stream st'.
Proof. intros Hbody. cbn [monitor_loop]. unfold bind. by rewrite Hbody. Qed.

Lemma monitor_loop_raise event stream st st' r :
  handle_event w self event st = (Raise r, st') →
  monitor_loop w self (Yield event :: stream) st = (Raise r, st').
Proof. intros Hbody. cbn [monitor_loop]. unfold bind. by rewrite Hbody. Qed.

(** An exception that leaves the body leaves the loop, is logged as fatal
    and raised again; the rest of the stream is not read. *)
Lemma monitor_events_fatal event stream st st' e :
  handle_event w self event (started self st) = (Raise (Exc e), st') →
  monitor_events w self (Yield event :: stream) st =
    (Raise (Exc e),
     record (Log ERROR ("Fatal error in event monitoring: " ++ exception_str w e)) st').
Proof.
  intros Hbody. unfold monitor_events.
  unfold bind at 1. unfold log at 1. unfold emit at 1.
  unfold bind at 1. unfold log at 1. unfold emit at 1.
  fold (started self st).
  by rewrite (monitor_loop_raise _ _ _ _ _ Hbody).
Qed.

(** C6: an event whose action is none of [start], [die], [pause],
    [unpause], [health_status] leads to no notification: handling it
    changes nothing outside (no request, no lookup, no log line), and where
    the event holds the keys read before the template check, no exception
    is raised and the loop goes on. *)
Theorem unknown_action_ignored (event : gmap string pyobj) (a : string) (st : State) :
  event !! "Action" = Some (Str a) →
  a ∉ ["start"; "die"; "pause"; "unpause"; "health_status"] →
  (handle_event w self event st).2 = st ∧
  (∀ event_type actor attributes,
     event !! "Type" = Some event_type →
     event !! "Actor" = Some (Dict actor) →
     actor !! "Attributes" = Some (Dict attributes) →
     handle_event w self event st = (Return tt, st) ∧
     ∀ stream, monitor_loop w self (Yield event :: stream) st
               = monitor_loop w self stream st).
Proof.
  intros Haction Hunknown.
  apply event_configs_None in Hunknown.
  assert (Hstate : (handle_event w self event st).2 = st).
  { unfold handle_event, bind, lift, ret, raise, dict_getitem. rewrite Haction.
    repeat (case_match; simplify_eq; try done).
    by rewrite notify_unknown. }
  split; [done|].
  intros event_type actor attributes Htype Hactor Hattrs.
  assert (handle_event w self event st = (Return tt, st)) as Hbody.
  { destruct (py_eq_str event_type "container") eqn:Hcontainer.
    - apply py_eq_str_true in Hcontainer as ->.
      rewrite (handle_event_container _ _ _ _ _ Htype Hactor Hattrs Haction).
      repeat case_match; try done. by apply notify_unknown.
    - unfold handle_event, bind, lift, dict_getitem. rewrite Htype.
      by rewrite Hcontainer. }
  split; [done|]. intros stream. by apply monitor_loop_continue.
Qed.

(** C7: for an accepted event with a template, the embed handed to
    [send_discord_embed], and carried by every request made for the event,
    lists the fields Event, Image, Status, Health, Platform (inline), then
    Timestamp (not inline, the clock at the time of sending), and, exactly
    when the action is [die], a last field "Exit Code" (not inline) with the
    event's [exitCode] attribute, or ["Unknown"] when there is none. *)
Theorem notification_fields (event actor attributes : gmap string pyobj) (a : string)
    (event_config : EventConfig) (container_id : pyobj) (st : State) :
  event !! "Type" = Some (Str "container") →
  event !! "Actor" = Some (Dict actor) →
  actor !! "Attributes" = Some (Dict attributes) →
  event !! "Action" = Some (Str a) →
  event !! "id" = Some container_id →
  container_skipped self (name_of attributes) = false →
  action_skipped self (Str a) = false →
  event_configs !! a = Some event_config →
  ∃ info st1 k,
    let fields :=
      ([ {| name := "Event"; value := Str a; inline := true |};
         {| name := "Image"; value := image info; inline := true |};
         {| name := "Status"; value := status info; inline := true |};
         {| name := "Health"; value := health info; inline := true |};
         {| name := "Platform"; value := platform info; inline := true |};
         {| name := "Timestamp";
            value := Str ("<t:" ++ pretty (time_time w (n_clock st)) ++ ":F>");
            inline := false |} ]
       ++ if bool_decide (a = "die")
          then [ {| name := "Exit Code";
                    value := default (Str "Unknown") (attributes !! "exitCode");
                    inline := false |} ]
          else [])%list in
    let title := format_name (title event_config) (to_str w (name_of attributes)) in
    let description :=
      format_name (description event_config) (to_str w (name_of attributes)) in
    get_container_status w container_id st = (Return info, st1) ∧
    handle_event w self event st =
      (let* sent := send_discord_embed w self title description
                      (color event_config) fields in
       if negb sent
       then log ERROR ("Failed to send notification for "
                       ++ to_str w (name_of attributes) ++ " " ++ a)
       else ret tt) (tick st1) ∧
    (k ≤ Z.to_nat (max_retries self))%nat ∧
    posts (out (handle_event w self event st).2) =
      (posts (out st)
       ++ replicate k [ {| embed_title := title;
                           embed_description := description;
                           embed_color := color event_config;
                           embed_fields := fields;
                           embed_timestamp :=
                             strftime w (time_time w (S (n_clock st))) |} ])%list.
Proof.
  intros Htype Hactor Hattrs Haction Hid Hname Hlevel Hconfig.
  destruct (notify_known event actor attributes (name_of attributes) a
              event_config container_id st Hactor Hattrs Hid Hconfig)
    as (info & st1 & Hstatus & Hnotify).
  destruct (get_container_status_quiet w _ _ _ _ Hstatus)
    as (Hposts & Hclock & _ & _).
  rewrite (handle_event_container _ _ _ _ _ Htype Hactor Hattrs Haction).
  rewrite Hname, Hlevel, Hnotify. rewrite Hclock.
  match goal with |- context [send_discord_embed w self ?t ?d ?c ?f] =>
    destruct (send_discord_embed_posts w self t d c f (tick st1)) as (k & Hk & Hsent) end.
  exists info, st1, k. cbn zeta. split; [done|]. split; [done|]. split; [done|].
  unfold bind at 1. unfold base_fields in Hsent |- *.
  cbn [tick out n_clock] in Hsent. rewrite Hposts, Hclock in Hsent.
  match goal with |- context [send_discord_embed w self ?t ?d ?c ?f ?s] =>
    destruct (send_discord_embed w self t d c f s) as [[[|]|r] st2] end;
    cbn [negb snd log emit record ret out] in *; rewrite ?posts_app; simpl;
    rewrite ?app_nil_r; exact Hsent.
Qed.




(** C10: a container event whose attributes hold no [name] is handled
    exactly as the same event named ["unknown"]: the name the body filters
    on, formats into the title and description, and logs is ["unknown"].
    So, under a container allow-list other than ["*"] that does not list
    ["unknown"], every such event is rejected: handling it changes
    nothing. Under an allow-list that is ["*"] or lists ["unknown"], with
    an accepted action that has a template, the embed is sent with
    ["unknown"] for [{name}] in the title and in the description: with a
    positive budget at least one request carries it; and when every attempt
    fails the body ends with the line
    ["Failed to send notification for unknown <action>"]. *)
Theorem nameless_is_unknown (event actor attributes : gmap string pyobj) (st : State) :
  event !! "Actor" = Some (Dict actor) →
  actor !! "Attributes" = Some (Dict attributes) →
  attributes !! "name" = None →
  get (Dict attributes) "name" (Str "unknown") = Return (Str "unknown") ∧
  handle_event w self event st =
    handle_event w self
      (<["Actor" := Dict (<["Attributes" := Dict (<["name" := Str "unknown"]> attributes)]>
                            actor)]> event) st ∧
  (event !! "Type" = Some (Str "container") →
   is_Some (event !! "Action") →
   monitored_containers self ≠ "*" →
   "unknown" ∉ split_comma (monitored_containers self) →
   handle_event w self event st = (Return tt, st)) ∧
  (∀ (a : string) (event_config : EventConfig) (container_id : pyobj),
     event !! "Type" = Some (Str "container") →
     event !! "Action" = Some (Str a) →
     event !! "id" = Some container_id →
     event_configs !! a = Some event_config →
     monitored_containers self = "*"
     ∨ "unknown" ∈ split_comma (monitored_containers self) →
     action_skipped self (Str a) = false →
     ∃ info st1,
       let title := format_name (title event_config) "unknown" in
       let description := format_name (description event_config) "unknown" in
       let fields :=
         (base_fields (Str a) info (time_time w (n_clock st))
          ++ if bool_decide (a = "die")
             then [ {| name := "Exit Code";
                       value := default (Str "Unknown") (attributes !! "exitCode");
                       inline := false |} ]
             else [])%list in
       let failure := "Failed to send notification for unknown " ++ a in
       get_container_status w container_id st = (Return info, st1) ∧
       handle_event w self event st =
         (let* sent := send_discord_embed w self title description
                         (color event_config) fields in
          if negb sent then log ERROR failure else ret tt) (tick st1) ∧
       (0 < max_retries self →
        ∃ k, (1 ≤ k ≤ Z.to_nat (max_retries self))%nat ∧
             posts (out (handle_event w self event st).2) =
               (posts (out st)
                ++ replicate k [ {| embed_title := title;
                                    embed_description := description;
                                    embed_color := color event_config;
                                    embed_fields := fields;
                                    embed_timestamp :=
                                      strftime w (time_time w (S (n_clock st))) |} ])%list) ∧
       (sleep_accepts w (retry_delay self) →
        (∀ i, (i < Z.to_nat (max_retries self))%nat →
              failed_attempt (webhook w (n_posts st + i)) = true) →
        ∃ st2, handle_event w self event st = (Return tt, st2) ∧
               last (out st2) = Some (Log ERROR failure))).
Proof.
  intros Hactor Hattrs Hname. split; [|split; [|split]].
  - cbn [get]. by rewrite Hname.
  - unfold handle_event, notify, dict_getitem.
    rewrite (lookup_insert_ne _ "Actor" "Type"), (lookup_insert_ne _ "Actor" "Action"),
      (lookup_insert_ne _ "Actor" "id") by done.
    rewrite lookup_insert_eq, Hactor.
    unfold bind, lift, ret. cbv beta iota delta [getitem dict_getitem].
    rewrite lookup_insert_eq, Hattrs.
    cbv beta iota delta [get].
    rewrite lookup_insert_eq, Hname, (lookup_insert_ne _ "name" "exitCode") by done.
    reflexivity.
  - intros Htype [action Haction] Hlist Hunknown.
    rewrite (handle_event_container _ _ _ _ _ Htype Hactor Hattrs Haction).
    unfold name_of. rewrite Hname. cbn [default from_option id].
    unfold container_skipped. cbn [in_list].
    by rewrite bool_decide_eq_true_2, bool_decide_eq_false_2.
  - intros a event_config container_id Htype Haction Hid Hconfig Hlist Hlevel.
    destruct (notify_known event actor attributes (name_of attributes) a
                event_config container_id st Hactor Hattrs Hid Hconfig)
      as (info & st1 & Hstatus & Hnotify).
    destruct (get_container_status_quiet w _ _ _ _ Hstatus)
      as (Hposts & Hclock & Hcount & _).
    exists info, st1. cbv zeta.
    assert (container_skipped self (name_of attributes) = false) as Haccepted.
    { unfold name_of. rewrite Hname. cbn [default from_option id].
      unfold container_skipped. cbn [in_list].
      destruct Hlist as [Hstar|Hlisted].
      - by rewrite bool_decide_eq_false_2 by (by intros []).
      - rewrite (bool_decide_eq_true_2 _ Hlisted). apply andb_false_r. }
    assert (to_str w (name_of attributes) = "unknown") as Htext.
    { unfold name_of. by rewrite Hname. }
    rewrite (handle_event_container _ _ _ _ _ Htype Hactor Hattrs Haction).
    rewrite Haccepted, Hlevel, Hnotify, Htext, Hclock.
    split; [done|]. split; [done|]. split.
    + intros Hbudget.
      match goal with |- context [send_discord_embed w self ?t ?d ?c ?f] =>
        destruct (send_discord_embed_requests_some w self t d c f (tick st1) Hbudget)
          as (k & Hk & Hsent) end.
      exists k. split; [done|].
      cbn [tick out n_clock] in Hsent. rewrite Hposts, Hclock in Hsent.
      unfold bind at 1.
      match goal with |- context [send_discord_embed w self ?t ?d ?c ?f ?s] =>
        destruct (send_discord_embed w self t d c f s) as [[[|]|r] st2] end;
        cbn [negb snd log emit record ret out] in *; rewrite ?posts_app; simpl;
        rewrite ?app_nil_r; exact Hsent.
    + intros Hdelay Hfail.
      match goal with |- context [send_discord_embed w self ?t ?d ?c ?f] =>
        destruct (send_discord_embed_all_failed w self t d c f (tick st1) Hdelay)
          as (st2 & Hsent) end.
      { cbn [tick n_posts]. rewrite Hcount. exact Hfail. }
      unfold bind at 1. rewrite Hsent. cbn [negb log emit].
      eexists. split; [reflexivity|]. cbn [record out]. apply last_snoc.
Qed.

(** C9 (amended): a container event without the [Actor] key, or, its
    [Actor] holding an [Attributes] object, without the [Action] key, makes
    the body raise [KeyError]; the error leaves the loop, is logged as
    fatal and raised again, and the rest of the stream is not read. An
    event without the [id] key does the same only when it passes both
    allow-lists and its action has a template; otherwise it is skipped like
    any other event. *)
Theorem missing_key (event : gmap string pyobj) (stream : list stream_item) (st : State) :
  event !! "Type" = Some (Str "container") →
  let fatal key :=
    monitor_events w self (Yield event :: stream) st =
      (Raise (Exc (KeyError (Str key))),
       record (Log ERROR ("Fatal error in event monitoring: " ++ repr w (Str key)))
         (started self st)) in
  (event !! "Actor" = None → fatal "Actor") ∧
  (∀ actor attributes,
     event !! "Actor" = Some (Dict actor) →
     actor !! "Attributes" = Some (Dict attributes) →
     (event !! "Action" = None → fatal "Action") ∧
     (∀ a, event !! "Action" = Some (Str a) →
           event !! "id" = None →
           if negb (container_skipped self (name_of attributes))
              && negb (action_skipped self (Str a))
              && bool_decide (a ∈ template_actions)
           then fatal "id"
           else ∀ st0, handle_event w self event st0 = (Return tt, st0))).
Proof.
  intros Htype fatal. subst fatal. cbv beta. split.
  - intros Hnone. apply (monitor_events_fatal _ _ _ _ (KeyError (Str "Actor"))).
    unfold handle_event, bind, lift, dict_getitem. rewrite Htype.
    cbn [py_eq_str negb]. rewrite bool_decide_eq_true_2 by done. cbn [negb].
    by rewrite Hnone.
  - intros actor attributes Hactor Hattrs. split.
    + intros Hnone. apply (monitor_events_fatal _ _ _ _ (KeyError (Str "Action"))).
      unfold handle_event, bind, lift, dict_getitem. rewrite Htype.
      cbn [py_eq_str negb]. rewrite bool_decide_eq_true_2 by done. cbn [negb].
      rewrite Hactor. cbn [getitem]. unfold dict_getitem. rewrite Hattrs.
      cbn [get]. by rewrite Hnone.
    + intros a Haction Hnone.
      pose proof (λ st0, handle_event_container _ _ _ _ st0 Htype Hactor Hattrs Haction)
        as Hbody.
      destruct (container_skipped self (name_of attributes)); [done|].
      destruct (action_skipped self (Str a)); [done|].
      cbn [negb andb]. case_bool_decide as Htemplate.
      * apply (monitor_events_fatal _ _ _ _ (KeyError (Str "id"))).
        rewrite Hbody. unfold notify, bind, lift. cbn [in_dict].
        rewrite bool_decide_eq_true_2 by (by apply event_configs_Some).
        unfold dict_getitem. by rewrite Hnone.
      * intros st0. rewrite Hbody. apply notify_unknown.
        by apply event_configs_None.
Qed.

End Loop.

(** ** The loop on concrete events *)

(** A started container [web]: one request, titled and coloured by the
    [start] template, with the looked-up status in its fields. *)
Example start_event_notified :
  handle_event ok_world default_monitor start_event initial_state =
    (Return tt,
     {| n_posts := 1; n_lookups := 1; n_clock := 2;
        out :=
          [ ContainersGet (Str "abc");
            Post (webhook_url default_monitor)
              [ {| embed_title := "🟢 Container Started: web";
                   embed_description := "Container web has started successfully.";
                   embed_color := 0x00FF00;
                   embed_fields :=
                     [ {| name := "Event"; value := Str "start"; inline := true |};
                       {| name := "Image"; value := Str "web:latest"; inline := true |};
                       {| name := "Status"; value := Str "running"; inline := true |};
                       {| name := "Health"; value := Str "N/A"; inline := true |};
                       {| name := "Platform"; value := Str "linux"; inline := true |};
                       {| name := "Timestamp"; value := Str "<t:1700000000:F>";
                          inline := false |} ];
                   embed_timestamp := "2023-11-14T22:13:20Z" |} ]
              10 ] |}).
Proof. vm_compute. reflexivity. Qed.

(** With [MONITORED_CONTAINERS=web,db] an event of [cache] is dropped:
    nothing is looked up or sent. *)
Example cache_event_rejected :
  handle_event ok_world web_db_monitor cache_event initial_state
  = (Return tt, initial_state).
Proof. vm_compute. reflexivity. Qed.

(** An interrupt while waiting for the next event ends the loop normally,
    after the events before it have been handled. *)
Example interrupt_is_graceful :
  monitor_events ok_world web_db_monitor
    [Yield cache_event; StreamRaises KeyboardInterrupt; Yield start_event] initial_state
  = (Return tt,
     record (Log INFO "Gracefully shutting down Docker monitor...")
       (started web_db_monitor initial_state)).
Proof. vm_compute. reflexivity. Qed.



Lemma unknown_action_ignored_witness :
  (handle_event web_world default_monitor create_event initial_state).2 = initial_state.
Proof.
  destruct (unknown_action_ignored web_world default_monitor create_event "create"
              initial_state) as [Hstate _].
  - reflexivity.
  - rewrite !not_elem_of_cons, elem_of_nil. repeat split; (discriminate || tauto).
  - exact Hstate.
Defined.

Lemma notification_fields_witness :
  ∃ k, (k ≤ 3)%nat ∧
    posts (out (handle_event web_world default_monitor die_event initial_state).2) =
      replicate k
        [ {| embed_title := "🔴 Container Stopped: web";
             embed_description := "Container web has stopped.";
             embed_color := 0xFF0000;
             embed_fields :=
               [ {| name := "Event"; value := Str "die"; inline := true |};
                 {| name := "Image"; value := Str "web:latest"; inline := true |};
                 {| name := "Status"; value := Str "running"; inline := true |};
                 {| name := "Health"; value := Str "N/A"; inline := true |};
                 {| name := "Platform"; value := Str "linux"; inline := true |};
                 {| name := "Timestamp"; value := Str "<t:1700000000:F>";
                    inline := false |};
                 {| name := "Exit Code"; value := Str "137"; inline := false |} ];
             embed_timestamp := "2023-11-14T22:13:20Z" |} ].
Proof.
  destruct (notification_fields web_world default_monitor die_event
              (<["ID" := Str "abc"]>
                 (<["Attributes" := Dict (<["name" := Str "web"]>
                                            (<["exitCode" := Str "137"]> ∅))]> ∅))
              (<["name" := Str "web"]> (<["exitCode" := Str "137"]> ∅))
              "die"
              {| title := "🔴 Container Stopped: {name}";
                 description := "Container {name} has stopped.";
                 color := 0xFF0000 |}
              (Str "abc") initial_state)
    as (info & st1 & k & Hstatus & _ & Hk & Hposts); try reflexivity.
  exists k. split; [exact Hk|].
  injection Hstatus as <- _. exact Hposts.
Defined.

(** C9, as stated, fails for the [id] key: a [create] event without it is
    skipped, no error is raised and the loop reads on to the end of the
    stream. *)
Lemma missing_id_not_always_fatal :
  ¬ (∀ (w : World) (self : DockerMonitor) (event : gmap string pyobj)
       (stream : list stream_item) (st : State),
       event !! "Type" = Some (Str "container") →
       event !! "Actor" = None ∨ event !! "Action" = None ∨ event !! "id" = None →
       ∃ key st',
         monitor_events w self (Yield event :: stream) st = (Raise (Exc (KeyError key)), st')).
Proof.
  intros Hclaim.
  destruct (Hclaim web_world default_monitor create_event_without_id [] initial_state)
    as (key & st' & Hrun); [reflexivity | right; right; reflexivity |].
  vm_compute in Hrun. discriminate.
Qed.

Lemma missing_key_witness :
  monitor_events web_world default_monitor
    [Yield start_event_without_id; Yield die_event] initial_state =
    (Raise (Exc (KeyError (Str "id"))),
     record (Log ERROR "Fatal error in event monitoring: 'id'")
       (started default_monitor initial_state)).
Proof.
  destruct (missing_key web_world default_monitor start_event_without_id
              [Yield die_event] initial_state eq_refl) as [_ Hactor].
  destruct (Hactor (<["ID" := Str "abc"]>
                      (<["Attributes" := Dict (<["name" := Str "web"]> ∅)]> ∅))
                   (<["name" := Str "web"]> ∅) eq_refl eq_refl) as [_ Hid].
  exact (Hid "start" eq_refl eq_refl).
Defined.

Lemma nameless_is_unknown_witness :
  handle_event web_world web_db_monitor nameless_event initial_state
  = (Return tt, initial_state)
  ∧ (∃ k, (1 ≤ k ≤ 3)%nat ∧
          posts (out (handle_event down_world default_monitor nameless_event
                        initial_state).2) =
            replicate k
              [ {| embed_title := "🟢 Container Started: unknown";
                   embed_description := "Container unknown has started successfully.";
                   embed_color := 65280;
                   embed_fields :=
                     [ {| name := "Event"; value := Str "start"; inline := true |};
                       {| name := "Image"; value := Str "web:latest"; inline := true |};
                       {| name := "Status"; value := Str "running"; inline := true |};
                       {| name := "Health"; value := Str "N/A"; inline := true |};
                       {| name := "Platform"; value := Str "linux"; inline := true |};
                       {| name := "Timestamp"; value := Str "<t:1700000000:F>";
                          inline := false |} ];
                   embed_timestamp := "2023-11-14T22:13:20Z" |} ])
  ∧ (∃ st2, handle_event down_world default_monitor nameless_event initial_state
            = (Return tt, st2)
            ∧ last (out st2)
              = Some (Log ERROR "Failed to send notification for unknown start")).
Proof.
  split.
  - destruct (nameless_is_unknown web_world web_db_monitor nameless_event
                (<["ID" := Str "abc"]>
                   (<["Attributes" := Dict (<["image" := Str "web:latest"]> ∅)]> ∅))
                (<["image" := Str "web:latest"]> ∅) initial_state
                eq_refl eq_refl eq_refl)
      as (_ & _ & Hrejected & _).
    apply Hrejected; [reflexivity | by eexists | discriminate |].
    simpl. rewrite !not_elem_of_cons, elem_of_nil. repeat split; (discriminate || tauto).
  - destruct (nameless_is_unknown down_world default_monitor nameless_event
                (<["ID" := Str "abc"]>
                   (<["Attributes" := Dict (<["image" := Str "web:latest"]> ∅)]> ∅))
                (<["image" := Str "web:latest"]> ∅) initial_state
                eq_refl eq_refl eq_refl)
      as (_ & _ & _ & Haccepted).
    destruct (Haccepted "start"
                {| title := "🟢 Container Started: {name}";
                   description := "Container {name} has started successfully.";
                   color := 65280 |}
                (Str "abc") eq_refl eq_refl eq_refl eq_refl (or_introl eq_refl) eq_refl)
      as (info & st1 & Hstatus & _ & Hposts & Hlog).
    injection Hstatus as <- <-.
    split.
    + destruct (Hposts ltac:(simpl; lia)) as (k & Hk & Hsent).
      exists k. split; [exact Hk|]. exact Hsent.
    + apply Hlog; [split; simpl; lia|]. intros i _. reflexivity.
Defined.

(** With [RETRY_DELAY=-1] a request that times out ends the monitor: the
    error [time.sleep] raises leaves [send_discord_embed] and the loop, is
    logged as fatal and raised again after one request; the next event is
    not read. *)
Lemma negative_delay_fatal :
  ∃ st',
    monitor_events unreachable_world negative_delay_monitor
      [Yield start_event; Yield die_event] initial_state
    = (Raise (Exc (OtherException "sleep length must be non-negative")), st') ∧
    List.length (posts (out st')) = 1%nat ∧
    last (out st')
    = Some (Log ERROR "Fatal error in event monitoring: sleep length must be non-negative").
Proof. eexists. split; [vm_compute; reflexivity|]. split; reflexivity. Qed.

(** * Further properties *)

(** ** The delivery client: requests, backoff and exceptions *)

Section DeliveryTrace.
Context (w : World) (self : DockerMonitor).

Lemma delivery_effect_app payload l1 l2 :
  Forall (delivery_effect self payload) l1 → Forall (delivery_effect self payload) l2 →
  Forall (delivery_effect self payload) (l1 ++ l2).
Proof. intros. by apply Forall_app. Qed.

(** The trace of the loop over the last [m] attempts of the budget. *)
Lemma send_attempts_trace payload k m st :
  max_retries self ≤ Z.of_nat (k + m) →
  ∃ added,
    out (send_attempts w self payload (Z.of_nat <$> seq k m) st).2
      = (out st ++ added)%list ∧
    n_lookups (send_attempts w self payload (Z.of_nat <$> seq k m) st).2 = n_lookups st ∧
    n_clock (send_attempts w self payload (Z.of_nat <$> seq k m) st).2 = n_clock st ∧
    Forall (delivery_effect self payload) added ∧
    (sleeps added ≤ Nat.pred m)%nat ∧
    ((m = 0%nat ∧ added = []) ∨ ∃ init e, added = (init ++ [e])%list ∧ is_sleep e = false).
Proof.
  revert k st. induction m as [|m IH]; intros k st Hmax.
  - exists []. simpl. rewrite app_nil_r. repeat split; try done. by left.
  - cbn [seq fmap list_fmap]. rewrite send_attempts_cons. cbv zeta.
    set (post := Post (webhook_url self) payload 10).
    assert (delivery_effect self payload post) as Hpost by done.
    assert (Hrest : ∀ st1 middle,
              out st1 = (out st ++ post :: middle)%list →
              n_lookups st1 = n_lookups st → n_clock st1 = n_clock st →
              Forall (delivery_effect self payload) middle →
              (m = 0%nat → ∃ init e, middle = (init ++ [e])%list ∧ is_sleep e = false) →
              (sleeps middle = 0 ∨ sleeps middle = 1 ∧ 1 ≤ m)%nat →
              ∃ added,
                out (send_attempts w self payload (Z.of_nat <$> seq (S k) m) st1).2
                  = (out st ++ added)%list ∧
                n_lookups (send_attempts w self payload (Z.of_nat <$> seq (S k) m) st1).2
                  = n_lookups st ∧
                n_clock (send_attempts w self payload (Z.of_nat <$> seq (S k) m) st1).2
                  = n_clock st ∧
                Forall (delivery_effect self payload) added ∧
                (sleeps added ≤ Nat.pred (S m))%nat ∧
                ((S m = 0%nat ∧ added = []) ∨
                 ∃ init e, added = (init ++ [e])%list ∧ is_sleep e = false)).
    { intros st1 middle Hout Hlookups Hclock Hmiddle Hlast Hsleeps.
      destruct (IH (S k) st1 ltac:(lia))
        as (added & Hadded & Hlookups' & Hclock' & Heffects & Hcount & Hend).
      exists (post :: middle ++ added)%list.
      rewrite Hadded, Hout, Hlookups', Hclock', <- app_assoc. cbn [app].
      repeat (split; [done|]). split.
      { constructor; [done|]. by apply Forall_app. }
      split.
      { change (post :: middle ++ added)%list with ([post] ++ middle ++ added)%list.
        rewrite !sleeps_app. simpl. lia. }
      right. destruct Hend as [[-> ->]|(init & e & -> & He)].
      - destruct (Hlast eq_refl) as (init & e & -> & He). exists (post :: init), e.
        by rewrite app_nil_r.
      - exists (post :: middle ++ init)%list, e. split; [|done].
        by rewrite !app_comm_cons, !app_assoc. }
    destruct (webhook w (n_posts st)) as [code|e].
    + case_bool_decide.
      * exists [post]. cbn [snd out n_lookups n_clock]. repeat (split; [done|]).
        split; [by constructor|]. split; [simpl; lia|]. right. by exists [], post.
      * match goal with |- context [send_attempts _ _ _ _ ?s] => set (st1 := s) end.
        apply (Hrest st1 [Log WARNING ("Discord API returned status code: " ++ pretty code)]);
          subst st1; cbn [record out n_lookups n_clock]; try done.
        -- by rewrite <- app_assoc.
        -- by repeat constructor.
        -- intros _. by eexists [], _.
        -- by left.
    + destruct e;
        try (exists [post]; cbn [snd out n_lookups n_clock]; repeat (split; [done|]);
             split; [by constructor|]; split; [simpl; lia|]; right; by exists [], post).
      set (failure := Log ERROR ("Attempt " ++ pretty (Z.of_nat k + 1) ++ "/"
                                 ++ pretty (max_retries self) ++ " failed: "
                                 ++ exception_str w (RequestException msg))).
      case_bool_decide as Hlast.
      * destruct (sleep_error w (retry_delay self)).
        -- exists [post; failure]. cbn [snd record out n_lookups n_clock].
           rewrite <- app_assoc. repeat (split; [done|]).
           split; [by repeat constructor|]. split; [simpl; lia|].
           right. by exists [post], failure.
        -- match goal with |- context [send_attempts _ _ _ _ ?s] => set (st1 := s) end.
           apply (Hrest st1 [failure; Sleep (retry_delay self)]);
             subst st1; cbn [record out n_lookups n_clock]; try done.
           ++ by rewrite <- !app_assoc.
           ++ by repeat constructor.
           ++ intros ->. lia.
           ++ right. split; [done|]. lia.
      * match goal with |- context [send_attempts _ _ _ _ ?s] => set (st1 := s) end.
        apply (Hrest st1 [failure]);
          subst st1; cbn [record out n_lookups n_clock]; try done.
        -- by rewrite <- !app_assoc.
        -- by repeat constructor.
        -- intros _. by eexists [], _.
        -- by left.
Qed.

(** The trace of one call: the clock is read once, then the loop runs
    over the whole budget. *)
Lemma send_discord_embed_trace title description color fields st :
  let payload := [ {| embed_title := title; embed_description := description;
                      embed_color := color; embed_fields := fields;
                      embed_timestamp := strftime w (time_time w (n_clock st)) |} ] in
  let st' := (send_discord_embed w self title description color fields st).2 in
  ∃ added,
    out st' = (out st ++ added)%list ∧
    n_lookups st' = n_lookups st ∧
    n_clock st' = S (n_clock st) ∧
    Forall (delivery_effect self payload) added ∧
    (sleeps added ≤ Nat.pred (Z.to_nat (max_retries self)))%nat ∧
    ((Z.to_nat (max_retries self) = 0%nat ∧ added = [])
     ∨ ∃ init e, added = (init ++ [e])%list ∧ is_sleep e = false).
Proof.
  intros payload st'. subst st'. unfold send_discord_embed, bind, clock, range.
  cbv beta iota zeta. fold payload.
  destruct (send_attempts_trace payload 0 (Z.to_nat (max_retries self)) (tick st))
    as (added & Hout & Hlookups & Hclock & Heffects & Hsleeps & Hend); [lia|].
  exists added. by rewrite Hout, Hlookups, Hclock.
Qed.

Lemma send_discord_embed_posts_bound title description color fields st :
  (n_posts (send_discord_embed w self title description color fields st).2
   ≤ n_posts st + Z.to_nat (max_retries self))%nat.
Proof.
  destruct (send_discord_embed_requests w self title description color fields st)
    as (made & Hmade & -> & _). lia.
Qed.

(** X1: [send_discord_embed] stops at the first attempt that does not
    simply fail. When it returns [True], the acknowledged request is the
    last one made and all requests before it failed; when it returns
    [False], exactly [max_retries] requests were made and all failed; when
    it raises, all requests before the last one made failed, and either the
    last request raised the exception, which is no [RequestException], or
    the last request, not the final one of the budget, ended in a transport
    error and the exception is the one [time.sleep] raises for the
    configured delay. *)
Theorem send_discord_embed_stops_at_first title description color fields st :
  let budget := Z.to_nat (max_retries self) in
  match send_discord_embed w self title description color fields st with
  | (Return true, st') =>
      ∃ i, (i < budget)%nat ∧ n_posts st' = (n_posts st + S i)%nat ∧
           acknowledged (webhook w (n_posts st + i)) = true ∧
           ∀ j, (j < i)%nat → failed_attempt (webhook w (n_posts st + j)) = true
  | (Return false, st') =>
      n_posts st' = (n_posts st + budget)%nat ∧
      ∀ j, (j < budget)%nat → failed_attempt (webhook w (n_posts st + j)) = true
  | (Raise r, st') =>
      ∃ i e, (i < budget)%nat ∧ n_posts st' = (n_posts st + S i)%nat ∧
             r = Exc e ∧
             (∀ j, (j < i)%nat → failed_attempt (webhook w (n_posts st + j)) = true) ∧
             ((webhook w (n_posts st + i) = PostRaises e ∧
               failed_attempt (PostRaises e) = false)
              ∨ (∃ msg, webhook w (n_posts st + i) = PostRaises (RequestException msg) ∧
                        (S i < budget)%nat ∧
                        sleep_error w (retry_delay self) = Some e ∧
                        ¬ sleep_accepts w (retry_delay self)))
  end.
Proof.
  intros budget. subst budget.
  pose proof (send_discord_embed_first w self title description color fields st) as Hfirst.
  cbv zeta in Hfirst.
  destruct (send_discord_embed w self title description color fields st)
    as [[[|]|r] st']; [done|done|].
  destruct Hfirst as (i & e & Hi & Hcount & Hr & Hall & Hcause).
  exists i, e. repeat (split; [done|]).
  destruct Hcause as [?|(msg & Hw & Hlast & Hsleep)]; [by left|].
  right. exists msg. repeat (split; [done|]).
  intros Haccepts. by rewrite (sleep_accepted w _ Haccepts) in Hsleep.
Qed.

(** X2: whatever the webhook does, a call only posts its one payload (the
    embed built from the arguments, stamped once before the first attempt)
    to the configured URL with a timeout of 10 seconds, sleeps for
    [retry_delay] seconds, and logs; it reads the clock once and looks no
    container up. *)
Theorem send_discord_embed_effects title description color fields st :
  let payload := [ {| embed_title := title; embed_description := description;
                      embed_color := color; embed_fields := fields;
                      embed_timestamp := strftime w (time_time w (n_clock st)) |} ] in
  let st' := (send_discord_embed w self title description color fields st).2 in
  ∃ added,
    out st' = (out st ++ added)%list ∧
    Forall (delivery_effect self payload) added ∧
    lookups added = 0%nat ∧
    n_lookups st' = n_lookups st ∧
    n_clock st' = S (n_clock st).
Proof.
  intros payload st'.
  destruct (send_discord_embed_trace title description color fields st)
    as (added & Hout & Hlookups & Hclock & Heffects & _).
  exists added. repeat (split; [done|]). split; [|done].
  clear Hout. induction Heffects as [|e added He _ IH]; [done|].
  by destruct e.
Qed.

(** X3: the backoff is bounded and never trails. A call sleeps at most
    [max_retries - 1] times, and the last thing it does is never a sleep:
    after the final attempt it returns at once. *)
Theorem send_discord_embed_backoff_bound title description color fields st :
  let st' := (send_discord_embed w self title description color fields st).2 in
  ∃ added,
    out st' = (out st ++ added)%list ∧
    (sleeps added ≤ Nat.pred (Z.to_nat (max_retries self)))%nat ∧
    ∀ e, last added = Some e → is_sleep e = false.
Proof.
  intros st'.
  destruct (send_discord_embed_trace title description color fields st)
    as (added & Hout & _ & _ & _ & Hsleeps & Hend).
  exists added. repeat (split; [done|]).
  intros e Hlast. destruct Hend as [[_ ->]|(init & e' & -> & He')]; [done|].
  rewrite last_snoc in Hlast. by injection Hlast as <-.
Qed.

End DeliveryTrace.

(** ** The status lookup: trace and malformed answers *)

Ltac interrupt_free :=
  match goal with
  | H : dict_getitem _ _ = Raise KeyboardInterrupt |- _ =>
      by destruct (dict_getitem_no_interrupt _ _ H)
  | H : getitem _ _ = Raise KeyboardInterrupt |- _ =>
      by destruct (getitem_no_interrupt _ _ H)
  | H : get _ _ _ = Raise KeyboardInterrupt |- _ =>
      by destruct (get_no_interrupt _ _ _ H)
  | H : created_text _ = Raise KeyboardInterrupt |- _ =>
      by destruct (created_text_no_interrupt _ H)
  end.

Section EnricherTrace.
Context (w : World).

Lemma get_container_status_costs (container_id : pyobj) :
  costs 1 0 0 (get_container_status w container_id).
Proof.
  intros st.
  destruct (get_container_status w container_id st) as [r st1] eqn:Hrun.
  cbn [snd]. revert Hrun.
  unfold get_container_status, container_status_of, client_containers_get.
  unfold bind at 1.
  destruct (containers_get w (n_lookups st) container_id) as [c|e].
  - unfold bind, lift, ret, log, emit, record.
    repeat case_match; simplify_eq; intros [= <- <-];
      cbn [n_lookups n_posts n_clock]; lia.
  - destruct e; unfold bind, log, emit, record, ret; intros [= <- <-];
      cbn [n_lookups n_posts n_clock]; lia.
Qed.

(** X4: a call of [get_container_status] asks the daemon once, sends
    nothing and does not read the clock. A container that is not found is
    passed over silently; any other exception of the lookup is logged in
    exactly one error line; a found container is logged only when its
    attributes make the extraction fail, and then the status is the
    all-["error"] one. *)
Theorem get_container_status_trace (container_id : pyobj) (st : State) :
  ∃ info st1,
    get_container_status w container_id st = (Return info, st1) ∧
    n_lookups st1 = S (n_lookups st) ∧ n_posts st1 = n_posts st ∧
    n_clock st1 = n_clock st ∧
    match containers_get w (n_lookups st) container_id with
    | LookupRaises (NotFound _) =>
        out st1 = (out st ++ [ContainersGet container_id])%list
    | LookupRaises e =>
        out st1 = (out st ++ [ContainersGet container_id;
                              Log ERROR ("Error getting container status: "
                                         ++ exception_str w e)])%list
    | Found _ =>
        out st1 = (out st ++ [ContainersGet container_id])%list
        ∨ (info = error_status ∧
           ∃ e, out st1 = (out st ++ [ContainersGet container_id;
                                      Log ERROR ("Error getting container status: "
                                                 ++ exception_str w e)])%list)
    end.
Proof.
  unfold get_container_status, container_status_of, client_containers_get.
  unfold bind at 1.
  destruct (containers_get w (n_lookups st) container_id) as [c|e].
  - unfold bind, lift, ret, log, emit, record.
    repeat case_match; simplify_eq; try interrupt_free;
      eexists _, _; (split; [reflexivity|]); cbn [n_lookups n_posts n_clock out];
      repeat (split; [done|]);
      first [ by left
            | right; split; [done|]; eexists; by rewrite <- app_assoc
            | idtac ].
    all: try (unfold get, getitem, dict_getitem, created_text in *;
              repeat case_match; simplify_eq).
  - destruct e; eexists _, _; (split; [reflexivity|]);
      cbn [n_lookups n_posts n_clock out log emit record bind ret snd];
      repeat (split; [done|]); by rewrite <- ?app_assoc.
Qed.

Lemma char_count_slice_to n s :
  char_count (slice_to n s) = (n `min` char_count s)%nat.
Proof.
  revert n. induction s as [|c s IH]; intros n; simpl; [lia|].
  destruct (is_continuation c) eqn:Hc; simpl; rewrite ?Hc; [apply IH|].
  destruct n as [|n]; simpl; rewrite ?Hc; [done|]. by rewrite IH.
Qed.

(** The slice is a prefix that ends where a character ends. *)
Lemma slice_to_prefix n s :
  ∃ rest, s = slice_to n s ++ rest ∧
          (rest = "" ∨ ∃ c rest', rest = String c rest' ∧ is_continuation c = false).
Proof.
  revert n. induction s as [|c s IH]; intros n; simpl.
  - exists "". split; [done|]. by left.
  - destruct (is_continuation c) eqn:Hc.
    + destruct (IH n) as (rest & Hs & Hrest). exists rest. split; [|done].
      change (String c s = String c (slice_to n s ++ rest)). by f_equal.
    + destruct n as [|n].
      * exists (String c s). split; [done|]. right. by exists c, s.
      * destruct (IH n) as (rest & Hs & Hrest). exists rest. split; [|done].
        change (String c s = String c (slice_to n s ++ rest)). by f_equal.
Qed.

Lemma length_replace_char old new s :
  String.length (replace_char old new s) = String.length s.
Proof. induction s as [|c s IH]; simpl; [done|]. by rewrite IH. Qed.

Lemma char_count_replace_char s :
  char_count (replace_char "T" " " s) = char_count s.
Proof.
  induction s as [|c s IH]; simpl; [done|].
  case_bool_decide as Hc; [subst c; simpl|]; by rewrite IH.
Qed.

Lemma replace_char_gone old new s i :
  old ≠ new → String.get i (replace_char old new s) ≠ Some old.
Proof.
  intros Hne. revert i. induction s as [|c s IH]; intros i; simpl; [done|].
  destruct i as [|i]; [|by apply IH].
  case_bool_decide; congruence.
Qed.

Lemma replace_char_other old new s i c :
  String.get i s = Some c → c ≠ old → String.get i (replace_char old new s) = Some c.
Proof.
  revert i. induction s as [|c' s IH]; intros i; simpl; [done|].
  destruct i as [|i]; [|by apply IH].
  intros [= ->] Hne. by rewrite bool_decide_eq_false_2.
Qed.

Lemma replace_char_at old new s i :
  String.get i s = Some old → String.get i (replace_char old new s) = Some new.
Proof.
  revert i. induction s as [|c s IH]; intros [|i]; simpl; try done; [|apply IH].
  intros [= ->]. by rewrite bool_decide_eq_true_2.
Qed.

(** X5: a container that is found but whose attributes do not have the
    expected shape is reported like a failed lookup: when [Created] is
    missing or no string, or [State] is present and no object, the status
    is the all-["error"] one and one error line is logged. *)
Theorem malformed_container_gives_error_status (container_id : pyobj) (st : State)
    (c : Container.t) :
  containers_get w (n_lookups st) container_id = Found c →
  (∀ s, Container.attrs c !! "Created" ≠ Some (Str s))
  ∨ (∃ v, Container.attrs c !! "State" = Some v ∧ ∀ d, v ≠ Dict d) →
  ∃ e, get_container_status w container_id st =
         (Return error_status,
          record (Log ERROR ("Error getting container status: " ++ exception_str w e))
            (record (ContainersGet container_id)
               {| n_posts := n_posts st; n_lookups := S (n_lookups st);
                  n_clock := n_clock st; out := out st |})).
Proof.
  intros Hfound Hbad.
  unfold get_container_status, container_status_of, client_containers_get.
  unfold bind at 1. rewrite Hfound.
  unfold bind, lift, ret, log, emit, record. cbn [get getitem dict_getitem].
  destruct Hbad as [Hcreated|(v & Hstate & Hv)].
  - unfold dict_getitem, created_text.
    repeat case_match; simplify_eq; try interrupt_free; try (by eexists);
      try (by destruct (Hcreated _ eq_refl));
      unfold get, dict_getitem in *; repeat case_match; simplify_eq.
  - rewrite Hstate. cbn [default from_option id].
    destruct v; try (by destruct (Hv _ eq_refl)); by eexists.
Qed.

(** X6: whatever a found container reports as [Created], the status never
    shows more than 19 characters of it and never a ['T']. The [created]
    field of a status built from a found container is the leading part of
    [Created] that holds its first 19 characters (all of it when it is
    shorter), cut where a character ends, with every ['T'] turned into a
    space and every other byte unchanged. *)
Theorem created_field_shape (container_id : pyobj) (st st1 : State)
    (c : Container.t) (info : ContainerStatus) :
  containers_get w (n_lookups st) container_id = Found c →
  get_container_status w container_id st = (Return info, st1) →
  info = error_status
  ∨ ∃ raw prefix rest text,
      Container.attrs c !! "Created" = Some (Str raw) ∧
      raw = prefix ++ rest ∧
      (rest = "" ∨ ∃ ch rest', rest = String ch rest' ∧ is_continuation ch = false) ∧
      char_count prefix = (19 `min` char_count raw)%nat ∧
      created info = Str text ∧
      char_count text = char_count prefix ∧
      String.length text = String.length prefix ∧
      (∀ i, String.get i text ≠ Some "T"%char) ∧
      (∀ i ch, String.get i prefix = Some ch → ch ≠ "T"%char →
               String.get i text = Some ch) ∧
      (∀ i, String.get i prefix = Some "T"%char → String.get i text = Some " "%char).
Proof.
  intros Hfound.
  unfold get_container_status, container_status_of, client_containers_get.
  unfold bind at 1. rewrite Hfound.
  unfold bind, lift, ret, log, emit, record. cbn [getitem dict_getitem].
  unfold dict_getitem.
  destruct (Container.attrs c !! "Created") as [[raw| | | | |]|] eqn:Hcreated;
    cbn [created_text];
    repeat case_match; simplify_eq; try interrupt_free;
    intros [= <- <-]; try (by left);
    try (unfold get in *; repeat case_match; simplify_eq).
  all: right; destruct (slice_to_prefix 19 raw) as (rest & Hraw & Hrest);
    exists raw, (slice_to 19 raw), rest, (replace_char "T" " " (slice_to 19 raw));
    split; [done|]; split; [done|]; split; [done|];
    split; [apply char_count_slice_to|]; split; [done|];
    split; [apply char_count_replace_char|];
    split; [apply length_replace_char|];
    split; [intros i; by apply replace_char_gone|];
    split; [intros i ch Hget Hch; by apply replace_char_other|];
    intros i Hget; by apply replace_char_at.
Qed.

End EnricherTrace.

(** ** The event loop: malformed events, composition and bounds *)

Section LoopFurther.
Context (w : World) (self : DockerMonitor).

Lemma py_eq_str_false v s : v ≠ Str s → py_eq_str v s = false.
Proof.
  intros Hne. destruct (py_eq_str v s) eqn:Heq; [|done].
  by apply py_eq_str_true in Heq.
Qed.

(** X7: an event whose [Type] is anything but the string ["container"] is
    passed over without another key being read: whatever else the event
    holds or lacks, nothing is done for it and the loop goes on. *)
Theorem other_event_ignored (event : gmap string pyobj) (event_type : pyobj)
    (stream : list stream_item) (st : State) :
  event !! "Type" = Some event_type →
  event_type ≠ Str "container" →
  handle_event w self event st = (Return tt, st) ∧
  monitor_loop w self (Yield event :: stream) st = monitor_loop w self stream st.
Proof.
  intros Htype Hother.
  assert (handle_event w self event st = (Return tt, st)) as Hbody.
  { unfold handle_event, bind, lift, dict_getitem. rewrite Htype.
    by rewrite (py_eq_str_false _ _ Hother). }
  split; [done|]. by apply monitor_loop_continue.
Qed.

(** X8: an event without the [Type] key ends the monitor, whatever the
    event is about: the [KeyError] is logged as fatal and raised again, and
    the events after it are not read. *)
Theorem event_without_type_is_fatal (event : gmap string pyobj)
    (stream : list stream_item) (st : State) :
  event !! "Type" = None →
  monitor_events w self (Yield event :: stream) st =
    (Raise (Exc (KeyError (Str "Type"))),
     record (Log ERROR ("Fatal error in event monitoring: " ++ repr w (Str "Type")))
       (started self st)).
Proof.
  intros Hnone. apply (monitor_events_fatal _ _ _ _ _ _ (KeyError (Str "Type"))).
  unfold handle_event, bind, lift, dict_getitem. by rewrite Hnone.
Qed.

(** X9: a container event whose [Actor] is no object, or holds no
    [Attributes], or whose [Attributes] is no object, ends the monitor: the
    exception ([TypeError], [KeyError], [AttributeError]) is logged as
    fatal and raised again. *)
Theorem malformed_actor_is_fatal (event : gmap string pyobj) (actor : pyobj)
    (stream : list stream_item) (st : State) :
  event !! "Type" = Some (Str "container") →
  event !! "Actor" = Some actor →
  (∀ attributes, getitem actor "Attributes" ≠ Return (Dict attributes)) →
  ∃ e,
    (getitem actor "Attributes" = Raise (Exc e)
     ∨ ∃ v, getitem actor "Attributes" = Return v
            ∧ get v "name" (Str "unknown") = Raise (Exc e)) ∧
    monitor_events w self (Yield event :: stream) st =
      (Raise (Exc e),
       record (Log ERROR ("Fatal error in event monitoring: " ++ exception_str w e))
         (started self st)).
Proof.
  intros Htype Hactor Hbad.
  assert (∃ e, getitem actor "Attributes" = Raise (Exc e)
               ∨ ∃ v, getitem actor "Attributes" = Return v
                      ∧ get v "name" (Str "unknown") = Raise (Exc e))
    as (e & Hraise).
  { destruct (getitem actor "Attributes") as [v|r] eqn:Hget.
    - destruct v as [s|n|b| |l|d]; try (by destruct (Hbad d));
        eexists; right; eexists; (split; [done|]); reflexivity.
    - destruct r as [|e]; [by destruct (getitem_no_interrupt _ _ Hget)|].
      exists e. by left. }
  exists e. split; [done|].
  apply monitor_events_fatal.
  unfold handle_event, bind, lift, dict_getitem. rewrite Htype.
  cbn [py_eq_str negb]. rewrite bool_decide_eq_true_2 by done. cbn [negb].
  rewrite Hactor.
  destruct Hraise as [->|(v & -> & ->)]; done.
Qed.

(** X10: an action that is a list or an object cannot be looked up in
    the template table. Under the action allow-list ["all"] such a
    container event, its name accepted, ends the monitor with a
    [TypeError]; under any other action allow-list it is no member of the
    list and is passed over. *)
Theorem unhashable_action (event actor attributes : gmap string pyobj)
    (action : pyobj) (stream : list stream_item) (st : State) :
  event !! "Type" = Some (Str "container") →
  event !! "Actor" = Some (Dict actor) →
  actor !! "Attributes" = Some (Dict attributes) →
  event !! "Action" = Some action →
  (∃ l, action = List l) ∨ (∃ d, action = Dict d) →
  (notification_level self ≠ "all" →
   handle_event w self event st = (Return tt, st)) ∧
  (notification_level self = "all" →
   container_skipped self (name_of attributes) = false →
   ∃ msg,
     monitor_events w self (Yield event :: stream) st =
       (Raise (Exc (TypeError msg)),
        record (Log ERROR ("Fatal error in event monitoring: " ++ msg))
          (started self st))).
Proof.
  intros Htype Hactor Hattrs Haction Hkind.
  pose proof (λ st0, handle_event_container w self _ _ _ _ st0 Htype Hactor Hattrs Haction)
    as Hbody.
  split.
  - intros Hlevel. rewrite Hbody. destruct (container_skipped _ _); [done|].
    unfold action_skipped. rewrite bool_decide_eq_true_2 by done.
    by destruct Hkind as [[l ->]|[d ->]].
  - intros Hlevel Hname.
    assert (∃ msg, in_dict action event_configs = Raise (Exc (TypeError msg)))
      as [msg Hin] by (destruct Hkind as [[l ->]|[d ->]]; by eexists).
    exists msg.
    apply (monitor_events_fatal _ _ _ _ _ _ (TypeError msg)).
    rewrite Hbody, Hname. unfold action_skipped.
    rewrite bool_decide_eq_false_2 by (by intros ?). cbn [andb].
    unfold notify, bind, lift. by rewrite Hin.
Qed.

(** X11: a name that holds a comma can never be allow-listed: under any
    container allow-list but ["*"] a container with such a name is
    rejected, and likewise an action with a comma under any action
    allow-list but ["all"]. *)
Theorem comma_never_listed (s : string) :
  has_comma s = true →
  (monitored_containers self ≠ "*" → container_skipped self (Str s) = true) ∧
  (notification_level self ≠ "all" → action_skipped self (Str s) = true).
Proof.
  intros Hcomma.
  assert (∀ csv, s ∉ split_comma csv) as Hout.
  { intros csv Hin.
    pose proof (split_comma_comma_free csv) as Hfree.
    rewrite Forall_forall in Hfree. specialize (Hfree _ Hin).
    unfold has_comma in Hcomma. by rewrite Hfree in Hcomma. }
  unfold container_skipped, action_skipped. cbn [in_list].
  split; intros Hlist; rewrite bool_decide_eq_true_2 by done;
    rewrite bool_decide_eq_false_2 by apply Hout; done.
Qed.

(** *** Bounds *)

Lemma monitor_events_started stream st :
  monitor_events w self stream st =
    match monitor_loop w self stream (started self st) with
    | (Return _, st1) => (Return tt, st1)
    | (Raise KeyboardInterrupt, st1) =>
        (Return tt, record (Log INFO "Gracefully shutting down Docker monitor...") st1)
    | (Raise (Exc e), st1) =>
        (Raise (Exc e),
         record (Log ERROR ("Fatal error in event monitoring: " ++ exception_str w e)) st1)
    end.
Proof.
  unfold monitor_events, bind, log, emit, raise. fold (started self st).
  by destruct (monitor_loop w self stream (started self st)) as [[[]|[|e]] st1].
Qed.

Lemma costs_ret {A} (a : A) : costs 0 0 0 (ret a).
Proof. intros st. simpl. lia. Qed.

Lemma costs_lift {A} (r : result A) : costs 0 0 0 (lift r).
Proof. intros st. simpl. lia. Qed.

Lemma costs_log lvl msg : costs 0 0 0 (log lvl msg).
Proof. intros st. simpl. lia. Qed.

Lemma costs_clock : costs 0 0 1 (clock w).
Proof. intros st. simpl. lia. Qed.

Lemma costs_weaken {A} l p c l' p' c' (m : M A) :
  (l ≤ l')%nat → (p ≤ p')%nat → (c ≤ c')%nat → costs l p c m → costs l' p' c' m.
Proof. intros Hl Hp Hc Hm st. specialize (Hm st). lia. Qed.

Lemma costs_bind {A B} l1 p1 c1 l2 p2 c2 (m : M A) (k : A → M B) :
  costs l1 p1 c1 m → (∀ a, costs l2 p2 c2 (k a)) →
  costs (l1 + l2) (p1 + p2) (c1 + c2) (bind m k).
Proof.
  intros Hm Hk st. unfold bind. specialize (Hm st).
  destruct (m st) as [[a|r] st1]; cbn [snd] in *; [|lia].
  specialize (Hk a st1). lia.
Qed.

Lemma send_discord_embed_costs title description color fields :
  costs 0 (Z.to_nat (max_retries self)) 1
    (send_discord_embed w self title description color fields).
Proof.
  intros st.
  destruct (send_discord_embed_trace w self title description color fields st)
    as (added & _ & Hlookups & Hclock & _).
  cbv zeta in Hlookups, Hclock. rewrite Hlookups, Hclock.
  split; [lia|]. split; [|lia].
  pose proof (send_discord_embed_posts_bound w self title description color fields st).
  lia.
Qed.

Lemma costs_raise {A} (r : raised) : costs 0 0 0 (@raise A r).
Proof. intros st. simpl. lia. Qed.

Ltac costs_step l1 p1 c1 l2 p2 c2 :=
  eapply (costs_weaken (l1 + l2) (p1 + p2) (c1 + c2));
  [lia | lia | lia | apply (costs_bind l1 p1 c1 l2 p2 c2)].

Lemma notify_costs event container_name action :
  costs 1 (Z.to_nat (max_retries self)) 2 (notify w self event container_name action).
Proof.
  set (n := Z.to_nat (max_retries self)).
  unfold notify.
  costs_step 0%nat 0%nat 0%nat 1%nat n 2%nat; [apply costs_lift|]. intros known.
  destruct known; [|eapply costs_weaken; [| | |apply costs_ret]; lia].
  costs_step 0%nat 0%nat 0%nat 1%nat n 2%nat; [apply costs_lift|]. intros container_id.
  costs_step 1%nat 0%nat 0%nat 0%nat n 2%nat; [apply get_container_status_costs|].
  intros info.
  costs_step 0%nat 0%nat 1%nat 0%nat n 1%nat; [apply costs_clock|]. intros now.
  costs_step 0%nat 0%nat 0%nat 0%nat n 1%nat.
  { destruct (py_eq_str action "die"); [|apply costs_ret].
    costs_step 0%nat 0%nat 0%nat 0%nat 0%nat 0%nat; [apply costs_lift|]. intros actor.
    costs_step 0%nat 0%nat 0%nat 0%nat 0%nat 0%nat; [apply costs_lift|]. intros attributes.
    costs_step 0%nat 0%nat 0%nat 0%nat 0%nat 0%nat; [apply costs_lift|]. intros exit_code.
    apply costs_ret. }
  intros fields.
  costs_step 0%nat 0%nat 0%nat 0%nat n 1%nat; [apply costs_lift|]. intros event_config.
  costs_step 0%nat n 1%nat 0%nat 0%nat 0%nat; [apply send_discord_embed_costs|].
  intros sent. destruct sent; [apply costs_ret|apply costs_log].
Qed.

Lemma handle_event_costs event :
  costs 1 (Z.to_nat (max_retries self)) 2 (handle_event w self event).
Proof.
  set (n := Z.to_nat (max_retries self)).
  assert (∀ A (a : A), costs 1 n 2 (ret a)) as Hret.
  { intros A a. eapply costs_weaken; [| | |apply costs_ret]; lia. }
  unfold handle_event.
  costs_step 0%nat 0%nat 0%nat 1%nat n 2%nat; [apply costs_lift|]. intros event_type.
  destruct (negb _); [apply Hret|].
  costs_step 0%nat 0%nat 0%nat 1%nat n 2%nat; [apply costs_lift|]. intros actor.
  costs_step 0%nat 0%nat 0%nat 1%nat n 2%nat; [apply costs_lift|]. intros attributes.
  costs_step 0%nat 0%nat 0%nat 1%nat n 2%nat; [apply costs_lift|]. intros container_name.
  costs_step 0%nat 0%nat 0%nat 1%nat n 2%nat; [apply costs_lift|]. intros action.
  destruct (container_skipped _ _); [apply Hret|].
  destruct (action_skipped _ _); [apply Hret|].
  apply notify_costs.
Qed.

Lemma monitor_loop_costs stream :
  costs (List.length stream) (List.length stream * Z.to_nat (max_retries self))
    (2 * List.length stream) (monitor_loop w self stream).
Proof.
  induction stream as [|item stream IH]; [apply costs_ret|].
  destruct item as [event|r].
  - cbn [monitor_loop].
    eapply costs_weaken; [| | |apply (costs_bind _ _ _ _ _ _ _ _ (handle_event_costs event)
                                        (λ _, IH))]; simpl; lia.
  - eapply costs_weaken; [| | |apply costs_raise]; lia.
Qed.

(** X14: the monitor is bounded per event. For every stream and whatever
    the daemon and the webhook do, it looks a container up at most once,
    sends at most [max_retries] requests and reads the clock at most twice
    for each event it reads. *)
Theorem monitor_events_bounds (stream : list stream_item) (st : State) :
  let st' := (monitor_events w self stream st).2 in
  (n_lookups st' ≤ n_lookups st + List.length stream)%nat ∧
  (n_posts st' ≤ n_posts st + List.length stream * Z.to_nat (max_retries self))%nat ∧
  (n_clock st' ≤ n_clock st + 2 * List.length stream)%nat.
Proof.
  cbv zeta. rewrite monitor_events_started.
  pose proof (monitor_loop_costs stream (started self st)) as Hloop.
  destruct (monitor_loop w self stream (started self st)) as [[[]|[|e]] st1];
    cbn [snd started record n_lookups n_posts n_clock] in *; lia.
Qed.

(** *** Composition *)

Lemma monitor_loop_app stream1 stream2 st :
  monitor_loop w self (stream1 ++ stream2) st =
    match monitor_loop w self stream1 st with
    | (Return _, st1) => monitor_loop w self stream2 st1
    | (Raise r, st1) => (Raise r, st1)
    end.
Proof.
  revert st. induction stream1 as [|item stream1 IH]; intros st; [done|].
  destruct item as [event|r]; [|done].
  cbn [app monitor_loop]. unfold bind.
  destruct (handle_event w self event st) as [[[]|r] st1]; [apply IH|done].
Qed.


(** X13: an interrupt or a fault of the stream after events that were all
    handled without an exception. The interrupt ends the monitor normally
    with one information line; the fault is logged as fatal and raised
    again; in both cases the items after it are not read. *)
Theorem stream_raises_after (stream1 stream2 : list stream_item) (r : raised)
    (st st1 : State) :
  monitor_loop w self stream1 (started self st) = (Return tt, st1) →
  monitor_events w self (stream1 ++ StreamRaises r :: stream2) st =
    match r with
    | KeyboardInterrupt =>
        (Return tt, record (Log INFO "Gracefully shutting down Docker monitor...") st1)
    | Exc e =>
        (Raise (Exc e),
         record (Log ERROR ("Fatal error in event monitoring: " ++ exception_str w e)) st1)
    end.
Proof.
  intros Hprefix.
  rewrite monitor_events_started, monitor_loop_app, Hprefix.
  cbn [monitor_loop]. unfold raise. by destruct r.
Qed.

(** *** The health-check interval *)

Lemma bind_ext {A B} (m : M A) (k k' : A → M B) st :
  (∀ a s, k a s = k' a s) → bind m k st = bind m k' st.
Proof. intros Hk. unfold bind. by destruct (m st) as [[a|r] st1]. Qed.

Lemma bind_cong {A B} (m m' : M A) (k : A → M B) st :
  m st = m' st → bind m k st = bind m' k st.
Proof. intros Hm. unfold bind. by rewrite Hm. Qed.

Lemma send_attempts_interval interval payload attempts st :
  send_attempts w (with_health_check_interval interval self) payload attempts st
  = send_attempts w self payload attempts st.
Proof.
  revert st. induction attempts as [|attempt attempts IH]; intros st; [done|].
  cbn [send_attempts with_health_check_interval webhook_url max_retries retry_delay].
  destruct (requests_post w (webhook_url self) payload 10 st) as [[code|[|e]] st1];
    [|done|].
  - case_bool_decide; [done|]. by apply bind_ext.
  - destruct e; try done. apply bind_ext. intros _ s. by apply bind_ext.
Qed.

Lemma send_discord_embed_interval interval title description color fields st :
  send_discord_embed w (with_health_check_interval interval self)
    title description color fields st
  = send_discord_embed w self title description color fields st.
Proof.
  unfold send_discord_embed. apply bind_ext. intros now s.
  apply send_attempts_interval.
Qed.

Lemma handle_event_interval interval event st :
  handle_event w (with_health_check_interval interval self) event st
  = handle_event w self event st.
Proof.
  unfold handle_event. apply bind_ext. intros event_type s.
  destruct (negb _); [done|].
  apply bind_ext. intros actor s1. apply bind_ext. intros attributes s2.
  apply bind_ext. intros container_name s3. apply bind_ext. intros action s4.
  unfold container_skipped, action_skipped.
  cbn [with_health_check_interval monitored_containers notification_level].
  destruct (_ && _); [done|]. destruct (_ && _); [done|].
  unfold notify. apply bind_ext. intros known s5. destruct known; [|done].
  apply bind_ext. intros container_id s6. apply bind_ext. intros info s7.
  apply bind_ext. intros now s8. apply bind_ext. intros fields s9.
  apply bind_ext. intros event_config s10.
  apply bind_cong. apply send_discord_embed_interval.
Qed.

(** X15: the health-check interval is inert. Whatever value the monitor
    holds for it, the monitor does exactly the same on every stream, in
    every world and from every state. *)
Theorem health_check_interval_unused (interval : Z) (stream : list stream_item)
    (st : State) :
  monitor_events w (with_health_check_interval interval self) stream st
  = monitor_events w self stream st.
Proof.
  assert (∀ s, monitor_loop w (with_health_check_interval interval self) stream s
               = monitor_loop w self stream s) as Hloop.
  { induction stream as [|item stream IH]; intros s; [done|].
    destruct item as [event|r]; [|done].
    cbn [monitor_loop]. unfold bind. rewrite handle_event_interval.
    destruct (handle_event w self event s) as [[[]|r] s1]; [apply IH|done]. }
  unfold monitor_events.
  cbn [with_health_check_interval monitored_containers notification_level].
  apply bind_ext. intros _ s1. apply bind_ext. intros _ s2.
  by rewrite Hloop.
Qed.

(** *** Text, and the edges of the attempt budget *)

Lemma string_app_empty_r (s : string) : s ++ "" = s.
Proof.
  induction s as [|c s IH]; [done|].
  change (String c (s ++ "") = String c s). by f_equal.
Qed.

(** X16: the text of a notification. For each of the five actions the
    title and the description are the template's fixed text around the
    container name, which is inserted as it is, braces included. *)
Theorem notification_text (name : string) :
  let text (cfg : EventConfig) :=
    (format_name (title cfg) name, format_name (description cfg) name) in
  text <$> event_configs !! "start" =
    Some ("🟢 Container Started: " ++ name,
          "Container " ++ name ++ " has started successfully.") ∧
  text <$> event_configs !! "die" =
    Some ("🔴 Container Stopped: " ++ name, "Container " ++ name ++ " has stopped.") ∧
  text <$> event_configs !! "pause" =
    Some ("⏸️ Container Paused: " ++ name, "Container " ++ name ++ " has been paused.") ∧
  text <$> event_configs !! "unpause" =
    Some ("▶️ Container Unpaused: " ++ name,
          "Container " ++ name ++ " has been unpaused.") ∧
  text <$> event_configs !! "health_status" =
    Some ("🏥 Health Status: " ++ name,
          "Health status changed for container " ++ name ++ ".").
Proof.
  intros text. subst text.
  assert (event_configs !! "start" =
          Some {| title := "🟢 Container Started: {name}";
                  description := "Container {name} has started successfully.";
                  color := 0x00FF00 |}) as -> by reflexivity.
  assert (event_configs !! "die" =
          Some {| title := "🔴 Container Stopped: {name}";
                  description := "Container {name} has stopped.";
                  color := 0xFF0000 |}) as -> by reflexivity.
  assert (event_configs !! "pause" =
          Some {| title := "⏸️ Container Paused: {name}";
                  description := "Container {name} has been paused.";
                  color := 0xFFA500 |}) as -> by reflexivity.
  assert (event_configs !! "unpause" =
          Some {| title := "▶️ Container Unpaused: {name}";
                  description := "Container {name} has been unpaused.";
                  color := 0x00FF00 |}) as -> by reflexivity.
  assert (event_configs !! "health_status" =
          Some {| title := "🏥 Health Status: {name}";
                  description := "Health status changed for container {name}.";
                  color := 0x0000FF |}) as -> by reflexivity.
  cbn [fmap option_fmap option_map title description].
  cbn [format_name]. rewrite !string_app_empty_r. repeat split; reflexivity.
Qed.

(** X17: with an attempt budget of zero or less nothing is ever sent. For
    an accepted event whose action has a template the status is still
    looked up and the clock read, no request is made, and the delivery is
    logged as failed; the loop goes on. *)
Theorem no_attempts_no_notification (event actor attributes : gmap string pyobj)
    (a : string) (container_id : pyobj) (st : State) :
  max_retries self ≤ 0 →
  event !! "Type" = Some (Str "container") →
  event !! "Actor" = Some (Dict actor) →
  actor !! "Attributes" = Some (Dict attributes) →
  event !! "Action" = Some (Str a) →
  event !! "id" = Some container_id →
  container_skipped self (name_of attributes) = false →
  action_skipped self (Str a) = false →
  a ∈ ["start"; "die"; "pause"; "unpause"; "health_status"] →
  ∃ info st1,
    get_container_status w container_id st = (Return info, st1) ∧
    handle_event w self event st =
      (Return tt,
       record (Log ERROR ("Failed to send notification for "
                          ++ to_str w (name_of attributes) ++ " " ++ a))
         (tick (tick st1))) ∧
    posts (out (handle_event w self event st).2) = posts (out st).
Proof.
  intros Hbudget Htype Hactor Hattrs Haction Hid Hname Hlevel Htemplate.
  apply event_configs_Some in Htemplate as [event_config Hconfig].
  destruct (notify_known w self event actor attributes (name_of attributes) a
              event_config container_id st Hactor Hattrs Hid Hconfig)
    as (info & st1 & Hstatus & Hnotify).
  exists info, st1. split; [done|].
  assert (handle_event w self event st =
          (Return tt,
           record (Log ERROR ("Failed to send notification for "
                              ++ to_str w (name_of attributes) ++ " " ++ a))
             (tick (tick st1)))) as Hbody.
  { rewrite (handle_event_container w self _ _ _ _ _ Htype Hactor Hattrs Haction).
    rewrite Hname, Hlevel, Hnotify.
    unfold bind, send_discord_embed, clock, range.
    by replace (Z.to_nat (max_retries self)) with 0%nat by lia. }
  split; [done|]. rewrite Hbody. cbn [snd record tick out].
  rewrite posts_app. simpl. rewrite app_nil_r.
  by destruct (get_container_status_quiet w _ _ _ _ Hstatus) as (-> & _).
Qed.

(** X18: an exception of [requests.post] that is no [RequestException] is
    not a delivery failure but the end of the monitor. When the first
    request for an accepted event with a template raises one, the exception
    passes through [send_discord_embed] and the loop, is logged as fatal
    and raised again after that single request; no retry is made and the
    events after it are not read. *)
Theorem other_post_exception_is_fatal (event actor attributes : gmap string pyobj)
    (a : string) (container_id : pyobj) (e : exception)
    (stream : list stream_item) (st : State) :
  0 < max_retries self →
  event !! "Type" = Some (Str "container") →
  event !! "Actor" = Some (Dict actor) →
  actor !! "Attributes" = Some (Dict attributes) →
  event !! "Action" = Some (Str a) →
  event !! "id" = Some container_id →
  container_skipped self (name_of attributes) = false →
  action_skipped self (Str a) = false →
  a ∈ ["start"; "die"; "pause"; "unpause"; "health_status"] →
  webhook w (n_posts st) = PostRaises e →
  failed_attempt (PostRaises e) = false →
  ∃ st',
    monitor_events w self (Yield event :: stream) st =
      (Raise (Exc e),
       record (Log ERROR ("Fatal error in event monitoring: " ++ exception_str w e)) st') ∧
    n_posts st' = S (n_posts st).
Proof.
  intros Hbudget Htype Hactor Hattrs Haction Hid Hname Hlevel Htemplate Hhook Hother.
  apply event_configs_Some in Htemplate as [event_config Hconfig].
  destruct (notify_known w self event actor attributes (name_of attributes) a
              event_config container_id (started self st) Hactor Hattrs Hid Hconfig)
    as (info & st1 & Hstatus & Hnotify).
  destruct (get_container_status_quiet w _ _ _ _ Hstatus) as (_ & _ & Hposts & _).
  cbn [started record n_posts] in Hposts.
  assert (∃ st', handle_event w self event (started self st) = (Raise (Exc e), st')
                 ∧ n_posts st' = S (n_posts st)) as (st' & Hbody & Hcount).
  { rewrite (handle_event_container w self _ _ _ _ _ Htype Hactor Hattrs Haction).
    rewrite Hname, Hlevel, Hnotify.
    unfold send_discord_embed, bind, clock, range.
    destruct (Z.to_nat (max_retries self)) as [|n] eqn:Hn; [lia|].
    cbn [seq fmap list_fmap send_attempts]. unfold requests_post.
    cbn [tick n_posts]. rewrite Hposts, Hhook.
    destruct e; try done; eexists; (split; [reflexivity|]); cbn [n_posts]; lia. }
  exists st'. split; [|done]. by apply monitor_events_fatal.
Qed.

End LoopFurther.

(** ** Start-up and exit status *)

Section Startup.
Context (h : Host) (w : World).

(** [monitor_events] catches the interrupt: it returns or raises an
    [Exception]. *)
Lemma monitor_events_no_interrupt self stream st :
  (monitor_events w self stream st).1 ≠ Raise KeyboardInterrupt.
Proof.
  rewrite monitor_events_started.
  by destruct (monitor_loop w self stream (started self st)) as [[[]|[|e]] st1].
Qed.

(** X19: without a webhook URL nothing starts. When [DISCORD_WEBHOOK_URL]
    is unset or empty, [main] logs the one line saying that it is required
    and exits with status 1; Docker is not contacted, no other setting is
    read and no event is. *)
Theorem startup_requires_webhook_url (stream : list stream_item) (st : State) :
  environ h !! "DISCORD_WEBHOOK_URL" = None
  ∨ environ h !! "DISCORD_WEBHOOK_URL" = Some "" →
  main h w stream st =
    (Exit 1, false,
     record (Log ERROR ("Application error: "
                        ++ "DISCORD_WEBHOOK_URL environment variable is required")) st).
Proof. intros [Hurl|Hurl]; unfold main, DockerMonitor_init; by rewrite Hurl. Qed.


(** X21: how [main] ends. The exit status is 0 or 1, never an uncaught
    exception. It is 0 only when the monitor was built, Docker having been
    contacted, and [monitor_events] returned; and whenever it is 1 the last
    line logged is the "Application error" line. *)
Theorem main_exit_status (stream : list stream_item) (st : State) :
  match main h w stream st with
  | (Exit code, docker_called, st') =>
      (code = 0 ∧ docker_called = true ∧
       ∃ monitor st1,
         DockerMonitor_init h w st = (inr monitor, true, st1) ∧
         monitor_events w monitor stream st1 = (Return tt, st'))
      ∨ (code = 1 ∧ ∃ msg, last (out st') = Some (Log ERROR ("Application error: " ++ msg)))
  | (Uncaught _, _, _) => False
  end.
Proof.
  unfold main.
  destruct (DockerMonitor_init h w st) as [[[e|monitor] called] st1] eqn:Hinit.
  - right. split; [done|]. eexists. cbn [record out]. by rewrite last_snoc.
  - assert (called = true ∧ True) as [-> _].
    { revert Hinit. unfold DockerMonitor_init.
      repeat case_match; by intros [= <- <- <-]. }
    pose proof (monitor_events_no_interrupt monitor stream st1) as Hcaught.
    destruct (monitor_events w monitor stream st1) as [[[]|[|e]] st2] eqn:Hrun;
      [|done|].
    + left. split; [done|]. split; [done|]. by exists monitor, st1.
    + right. split; [done|]. eexists. cbn [record out]. by rewrite last_snoc.
Qed.

(** X22: a failed connection to Docker is logged twice. When the settings
    are valid and [docker.from_env()] or [ping()] raises a
    [DockerException], [__init__] logs "Failed to connect to Docker" and
    raises it again, [main] logs "Application error" and exits with
    status 1; any other exception of the connection is logged by [main]
    only. *)
Theorem docker_failure_exit (url : string) (e : startup_exception)
    (stream : list stream_item) (st : State) :
  environ h !! "DISCORD_WEBHOOK_URL" = Some url → url ≠ "" →
  is_Some (py_int h (environ_get h "HEALTH_CHECK_INTERVAL" "300")) →
  is_Some (py_int h (environ_get h "MAX_RETRIES" "3")) →
  is_Some (py_int h (environ_get h "RETRY_DELAY" "5")) →
  docker_connect h = ConnectRaises e →
  main h w stream st =
    (Exit 1, true,
     record (Log ERROR ("Application error: " ++ startup_exception_str w e))
       match e with
       | DockerException m => record (Log ERROR ("Failed to connect to Docker: " ++ m)) st
       | _ => st
       end).
Proof.
  intros Hurl Hne [n1 H1] [n2 H2] [n3 H3] Hconnect.
  unfold main, DockerMonitor_init, int_setting.
  rewrite Hurl, H1, H2, H3, Hconnect.
  destruct url as [|c url]; [done|]. by destruct e.
Qed.

(** X23: how the process ends when the stream breaks. Once the monitor is
    built and the events so far were handled without an exception, an
    interrupt at the stream ends the process with status 0 after the one
    "Gracefully shutting down" line; a fault of the stream is logged
    twice, as "Fatal error in event monitoring" by the monitor and as
    "Application error" by [main], and the status is 1. *)
Theorem stream_end_exit (monitor : DockerMonitor) (docker_called : bool)
    (stream1 stream2 : list stream_item) (r : raised) (st st1 st2 : State) :
  DockerMonitor_init h w st = (inr monitor, docker_called, st1) →
  monitor_loop w monitor stream1 (started monitor st1) = (Return tt, st2) →
  main h w (stream1 ++ StreamRaises r :: stream2) st =
    match r with
    | KeyboardInterrupt =>
        (Exit 0, docker_called,
         record (Log INFO "Gracefully shutting down Docker monitor...") st2)
    | Exc e =>
        (Exit 1, docker_called,
         record (Log ERROR ("Application error: " ++ exception_str w e))
           (record (Log ERROR ("Fatal error in event monitoring: "
                               ++ exception_str w e)) st2))
    end.
Proof.
  intros Hinit Hprefix. unfold main. rewrite Hinit.
  rewrite monitor_events_started, monitor_loop_app, Hprefix.
  cbn [monitor_loop]. unfold raise. by destruct r.
Qed.

End Startup.

(** ** The further properties on concrete inputs *)

Lemma malformed_container_gives_error_status_witness :
  ∃ e, get_container_status (example_world hook_500_500_204 (Found bare_container))
         (Str "abc") initial_state =
         (Return error_status,
          record (Log ERROR ("Error getting container status: "
                             ++ exception_str
                                  (example_world hook_500_500_204 (Found bare_container)) e))
            (record (ContainersGet (Str "abc"))
               {| n_posts := 0; n_lookups := 1; n_clock := 0; out := [] |})).
Proof.
  apply (malformed_container_gives_error_status
           (example_world hook_500_500_204 (Found bare_container))
           (Str "abc") initial_state bare_container eq_refl).
  left. intros s. discriminate.
Defined.

Lemma created_field_shape_witness :
  ∃ text, created {| image := Str "web:latest"; status := Str "running";
                     health := Str "N/A"; created := Str "2024-01-01 12:00:00";
                     platform := Str "linux" |} = Str text
          ∧ char_count text = 19%nat.
Proof.
  destruct (created_field_shape web_world (Str "abc") initial_state
              (record (ContainersGet (Str "abc"))
                 {| n_posts := 0; n_lookups := 1; n_clock := 0; out := [] |})
              web_container
              {| image := Str "web:latest"; status := Str "running";
                 health := Str "N/A"; created := Str "2024-01-01 12:00:00";
                 platform := Str "linux" |} eq_refl eq_refl)
    as [Herror|(raw & prefix & rest & text & Hraw & _ & _ & Hcount & Htext & Hsame & _)];
    [discriminate|].
  exists text. split; [exact Htext|].
  injection Hraw as <-. rewrite Hsame. exact Hcount.
Defined.

Lemma other_event_ignored_witness :
  handle_event web_world default_monitor network_event initial_state
  = (Return tt, initial_state).
Proof.
  destruct (other_event_ignored web_world default_monitor network_event (Str "network")
              [] initial_state eq_refl) as [Hbody _]; [discriminate|exact Hbody].
Defined.

Lemma event_without_type_is_fatal_witness :
  monitor_events web_world default_monitor [Yield untyped_event; Yield start_event]
    initial_state =
    (Raise (Exc (KeyError (Str "Type"))),
     record (Log ERROR "Fatal error in event monitoring: 'Type'")
       (started default_monitor initial_state)).
Proof.
  exact (event_without_type_is_fatal web_world default_monitor untyped_event
           [Yield start_event] initial_state eq_refl).
Defined.

Lemma malformed_actor_is_fatal_witness :
  ∃ e, monitor_events web_world default_monitor [Yield flat_actor_event] initial_state =
         (Raise (Exc e),
          record (Log ERROR ("Fatal error in event monitoring: "
                             ++ exception_str web_world e))
            (started default_monitor initial_state)).
Proof.
  destruct (malformed_actor_is_fatal web_world default_monitor flat_actor_event
              (Str "abc") [] initial_state eq_refl eq_refl) as (e & _ & Hrun).
  - intros attributes. discriminate.
  - by exists e.
Defined.

Lemma unhashable_action_witness :
  handle_event web_world start_die_monitor list_action_event initial_state
  = (Return tt, initial_state).
Proof.
  destruct (unhashable_action web_world start_die_monitor list_action_event
              (<["ID" := Str "abc"]> (<["Attributes" := Dict (<["name" := Str "web"]> ∅)]> ∅))
              (<["name" := Str "web"]> ∅) (List []) [] initial_state
              eq_refl eq_refl eq_refl eq_refl) as [Hskipped _].
  - left. by exists [].
  - apply Hskipped. discriminate.
Defined.

Lemma comma_never_listed_witness :
  container_skipped web_db_monitor (Str "web,db") = true.
Proof.
  destruct (comma_never_listed web_db_monitor "web,db" eq_refl) as [Hname _].
  apply Hname. discriminate.
Defined.

Lemma stream_raises_after_witness :
  monitor_events ok_world web_db_monitor
    ([Yield cache_event] ++ StreamRaises (Exc (OtherException "connection lost"))
                         :: [Yield start_event]) initial_state =
    (Raise (Exc (OtherException "connection lost")),
     record (Log ERROR "Fatal error in event monitoring: connection lost")
       (started web_db_monitor initial_state)).
Proof.
  exact (stream_raises_after ok_world web_db_monitor [Yield cache_event]
           [Yield start_event] (Exc (OtherException "connection lost"))
           initial_state (started web_db_monitor initial_state) eq_refl).
Defined.

Lemma no_attempts_no_notification_witness :
  posts (out (handle_event ok_world no_retry_monitor start_event initial_state).2) = [].
Proof.
  destruct (no_attempts_no_notification ok_world no_retry_monitor start_event
              (<["ID" := Str "abc"]> (<["Attributes" := Dict (<["name" := Str "web"]> ∅)]> ∅))
              (<["name" := Str "web"]> ∅) "start" (Str "abc") initial_state
              (Z.le_refl 0) eq_refl eq_refl eq_refl eq_refl eq_refl eq_refl eq_refl
              (list_elem_of_here _ _))
    as (info & st1 & _ & _ & Hposts).
  exact Hposts.
Defined.

Lemma other_post_exception_is_fatal_witness :
  ∃ st', monitor_events (example_world hook_crash (Found web_container)) default_monitor
           [Yield start_event; Yield die_event] initial_state =
           (Raise (Exc (OtherException "boom")),
            record (Log ERROR "Fatal error in event monitoring: boom") st')
         ∧ n_posts st' = 1%nat.
Proof.
  destruct (other_post_exception_is_fatal
              (example_world hook_crash (Found web_container)) default_monitor start_event
              (<["ID" := Str "abc"]> (<["Attributes" := Dict (<["name" := Str "web"]> ∅)]> ∅))
              (<["name" := Str "web"]> ∅) "start" (Str "abc") (OtherException "boom")
              [Yield die_event] initial_state
              eq_refl eq_refl eq_refl eq_refl eq_refl eq_refl eq_refl eq_refl
              (list_elem_of_here _ _) eq_refl eq_refl)
    as (st' & Hrun & Hposts).
  by exists st'.
Defined.

Lemma startup_requires_webhook_url_witness :
  main (example_host ∅ Connected) web_world [Yield start_event] initial_state =
    (Exit 1, false,
     record (Log ERROR
               "Application error: DISCORD_WEBHOOK_URL environment variable is required")
       initial_state).
Proof.
  apply (startup_requires_webhook_url (example_host ∅ Connected) web_world
           [Yield start_event] initial_state).
  left. reflexivity.
Defined.


Lemma docker_failure_exit_witness :
  main (example_host url_only (ConnectRaises (DockerException "daemon unreachable")))
    web_world [Yield start_event] initial_state =
    (Exit 1, true,
     record (Log ERROR "Application error: daemon unreachable")
       (record (Log ERROR "Failed to connect to Docker: daemon unreachable") initial_state)).
Proof.
  apply (docker_failure_exit
           (example_host url_only (ConnectRaises (DockerException "daemon unreachable")))
           web_world "https://discord.example/api/webhooks/1"
           (DockerException "daemon unreachable") [Yield start_event] initial_state);
    try reflexivity; try discriminate; by eexists.
Defined.

Lemma stream_end_exit_witness :
  main (example_host url_only Connected) ok_world
    ([Yield network_event] ++ StreamRaises KeyboardInterrupt :: [Yield start_event])
    initial_state =
    (Exit 0, true,
     record (Log INFO "Gracefully shutting down Docker monitor...")
       (started default_monitor initial_state)).
Proof.
  exact (stream_end_exit (example_host url_only Connected) ok_world default_monitor true
           [Yield network_event] [Yield start_event] KeyboardInterrupt
           initial_state initial_state (started default_monitor initial_state)
           eq_refl eq_refl).
Defined.
